(** * The javac compile rule of the Pants JVM backend

    A shallow embedding of [compile_java_source]
    (src/python/pants/backend/java/compile/javac.py).  The rule is an
    [async] function that talks to the build engine through [Get] and
    [MultiGet]; it is embedded as a program over a request signature, and
    an interpreter answers the requests from a record of collaborators
    while logging what was asked. *)

From Stdlib Require Import ZArith String List Permutation Sorted DecimalString.
From stdpp Require Import base option list strings sorting.

Local Open Scope string_scope.
Local Open Scope list_scope.
Local Open Scope Z_scope.

Set Warnings "-register-all".

(** ** Values whose shape the rule relies on *)

(** [CompileResult], the three states of a fallible classpath entry. *)
Inductive CompileResult := SUCCEEDED | FAILED | DEPENDENCY_FAILED.

#[global] Instance CompileResult_eq_dec : EqDecision CompileResult.
Proof. solve_decision. Defined.

(** The two field classes the rule names. *)
Inductive FieldType := SourcesField | JavaSourceField.

Inductive LogLevel := TRACE | DEBUG | INFO | WARN | ERROR.

(** [BashBinary] and [ZipBinary]: only [.path] is read. *)
Record BashBinary := { bash_path : string }.
Record ZipBinary := { zip_path : string }.

(** [Directory(path)], the one kind of entry handed to [CreateDigest]. *)
Record Directory := { directory_path : string }.

(** What the rule imports and never defines: the digests of the content
    store, targets with their fields, coordinates, the resolve key and its
    lockfile, and the JDK setup.  They are kept abstract; only the
    operations the rule calls are listed. *)
Class Host := {
  Digest : Type;
  Digest_eq_dec :: EqDecision Digest;
  EMPTY_DIGEST : Digest;
  Target : Type;
  Field : Type;
  has_field : Target -> FieldType -> bool;
  get : Target -> FieldType -> Field;
  Coordinate : Type;
  JvmArtifactFieldSet_is_applicable : Target -> bool;
  Coordinate_from_jvm_artifact_target : Target -> Coordinate;
  CoursierResolveKey : Type;
  CoursierResolvedLockfile : Type;
  JdkSetup : Type;
  jdk_digest : JdkSetup -> Digest;
  java_home : JdkSetup -> string;
  jdk_args : JdkSetup -> BashBinary -> list string -> list string;
  jdk_append_only_caches : JdkSetup -> list (string * string);
  jdk_env : JdkSetup -> list (string * string);
}.

Section Model.
Context `{Host}.

(** [CoarsenedTarget]: the members compiled together and the components
    they depend on. *)
Inductive CoarsenedTarget := {
  members : list Target;
  dependencies : list CoarsenedTarget;
}.

Record CompileJavaSourceRequest := {
  component : CoarsenedTarget;
  resolve : CoursierResolveKey;
}.

Record ClasspathEntry := { digest : Digest }.

(** The four fields the rule sets when it builds the entry itself
    (lines 75-80 and 111-116). *)
Record FallibleClasspathEntry := {
  description : string;
  result : CompileResult;
  output : option ClasspathEntry;
  exit_code : Z;
}.

Record Snapshot := {
  snapshot_digest : Digest;
  files : list string;
}.

Record SourceFiles := { snapshot : Snapshot }.

Record SourceFilesRequest := {
  sources_fields : list Field;
  for_sources_types : list FieldType;
  enable_codegen : bool;
}.

Record FilterDependenciesRequest := {
  filter_coordinates : list Coordinate;
  filter_lockfile : CoursierResolvedLockfile;
}.

Record MaterializedClasspathRequest := {
  prefix : string;
  lockfiles : list CoursierResolvedLockfile;
}.

Record MaterializedClasspath := {
  materialized_digest : Digest;
  classpath_entries : list string;
}.

(** [Process] as the rule calls it: a keyword argument that one of the
    two call sites leaves out is [None] there. *)
Record Process := {
  argv : list string;
  input_digest : Digest;
  use_nailgun : option Digest;
  append_only_caches : option (list (string * string));
  env : option (list (string * string));
  output_directories : option (list string);
  output_files : option (list string);
  process_description : string;
  level : LogLevel;
}.

Record FallibleProcessResult := {
  process_exit_code : Z;
  process_output_digest : Digest;
}.

Record ProcessResult := { output_digest : Digest }.

(** What the rule reads off a component besides its two fields: its
    string form, the path-safe spec of its representative's address, and
    the closure of a collection of components. *)
Class Graph := {
  CoarsenedTarget_str : CoarsenedTarget -> string;
  representative_path_safe_spec : CoarsenedTarget -> string;
  CoarsenedTargets_closure : list CoarsenedTarget -> list CoarsenedTarget;
}.

(** ** Requests *)

(** [Request B]: a [Get(B, ...)] the rule issues. *)
Inductive Request : Type -> Type :=
| Get_FallibleClasspathEntry (r : CompileJavaSourceRequest)
    : Request FallibleClasspathEntry
| Get_SourceFiles (r : SourceFilesRequest) : Request SourceFiles
| Get_Digest_MergeDigests (ds : list Digest) : Request Digest
| Get_Digest_CreateDigest (es : list Directory) : Request Digest
| Get_Snapshot_AddPrefix (d : Digest) (p : string) : Request Snapshot
| Get_Snapshot_Digest (d : Digest) : Request Snapshot
| Get_CoursierResolvedLockfile_Key (k : CoursierResolveKey)
    : Request CoursierResolvedLockfile
| Get_CoursierResolvedLockfile_Filter (r : FilterDependenciesRequest)
    : Request CoursierResolvedLockfile
| Get_MaterializedClasspath (r : MaterializedClasspathRequest)
    : Request MaterializedClasspath
| Get_FallibleProcessResult (p : Process) : Request FallibleProcessResult
| Get_ProcessResult (p : Process) : Request ProcessResult.

(** A rule body: it returns, or it suspends on one request, on a
    generator of requests of one type, or on three requests at once, and
    goes on with the answers. *)
Inductive Rule (A : Type) : Type :=
| Ret (a : A)
| Await {B} (q : Request B) (k : B -> Rule A)
| AwaitAll {B} (qs : list (Request B)) (k : list B -> Rule A)
| AwaitAll3 {B1 B2 B3} (q1 : Request B1) (q2 : Request B2) (q3 : Request B3)
    (k : B1 * B2 * B3 -> Rule A).

Arguments Ret {A} a.
Arguments Await {A B} q k.
Arguments AwaitAll {A B} qs k.
Arguments AwaitAll3 {A B1 B2 B3} q1 q2 q3 k.

Fixpoint bind {A C} (m : Rule A) (f : A -> Rule C) : Rule C :=
  match m with
  | Ret a => f a
  | Await q k => Await q (fun b => bind (k b) f)
  | AwaitAll qs k => AwaitAll qs (fun bs => bind (k bs) f)
  | AwaitAll3 q1 q2 q3 k => AwaitAll3 q1 q2 q3 (fun bs => bind (k bs) f)
  end.

(** [await Get(...)], [await MultiGet(... for ...)] and
    [await MultiGet(a, b, c)]. *)
Definition Get {B} (q : Request B) : Rule B := Await q Ret.
Definition MultiGet {B} (qs : list (Request B)) : Rule (list B) :=
  AwaitAll qs Ret.
Definition MultiGet3 {B1 B2 B3} (q1 : Request B1) (q2 : Request B2)
    (q3 : Request B3) : Rule (B1 * B2 * B3) :=
  AwaitAll3 q1 q2 q3 Ret.

Notation "x <- m ;; k" := (bind m (fun x => k))
  (at level 100, m at next level, right associativity).

(** ** Python idioms *)

(** Truth value of a [str]: the empty string is falsy. *)
Definition str_truthy (s : string) : bool :=
  match s with EmptyString => false | String _ _ => true end.

(** Truth value of a tuple or list: empty is falsy. *)
Definition seq_truthy {A} (l : list A) : bool :=
  match l with [] => false | _ :: _ => true end.

(** Truth value of an optional dataclass instance: only [None] is falsy. *)
Definition opt_truthy {A} (o : option A) : bool :=
  match o with None => false | Some _ => true end.

(** [sep.join(parts)]. *)
Definition join (sep : string) (parts : list string) : string :=
  String.concat sep parts.

(** The order of [str.__lt__]: by code point, shorter prefix first. *)
Definition str_le (a b : string) : Prop := String.leb a b = true.

#[global] Instance str_le_dec : RelDecision str_le.
Proof. intros a b. unfold str_le. apply _. Defined.

(** [sorted(xs)] on strings. *)
Definition sorted (xs : list string) : list string := merge_sort str_le xs.

(** [chain.from_iterable(xss)]. *)
Definition chain_from_iterable {A} (xss : list (list A)) : list A := concat xss.

(** ** The rule *)

Context `{Graph}.

(** Modelled from the spec: [FallibleClasspathEntry.from_fallible_process_result]
    is defined in pants.jvm.compile, outside javac.py.
    Section 4.6 and section 7 of the specification: the description is the
    one passed in, status and exit code mirror the compiler's fallible
    result ([Succeeded] on a zero exit, [Failed] otherwise), and the
    classpath entry is the one passed in. *)
Definition from_fallible_process_result (description0 : string)
    (process_result : FallibleProcessResult)
    (output0 : option ClasspathEntry) : FallibleClasspathEntry :=
  {| description := description0;
     result := if process_exit_code process_result =? 0
               then SUCCEEDED else FAILED;
     output := output0;
     exit_code := process_exit_code process_result |}.

Definition compile_java_source (bash : BashBinary) (jdk_setup : JdkSetup)
    (zip_binary : ZipBinary) (request : CompileJavaSourceRequest)
    : Rule FallibleClasspathEntry :=
  (* Request the component's direct dependency classpath. *)
  direct_dependency_classfiles_fallible <-
    MultiGet
      (map (fun coarsened_dep =>
              Get_FallibleClasspathEntry
                {| component := coarsened_dep; resolve := resolve request |})
           (dependencies (component request))) ;;
  let direct_dependency_classfiles : list ClasspathEntry :=
    omap (fun fcc => if opt_truthy (output fcc) then output fcc else None)
         direct_dependency_classfiles_fallible in
  if negb (length direct_dependency_classfiles
           =? length direct_dependency_classfiles_fallible)%nat
  then
    Ret {| description := CoarsenedTarget_str (component request);
           result := DEPENDENCY_FAILED;
           output := None;
           exit_code := 1 |}
  else
  (* Then collect the component's sources. *)
  let component_members_with_sources :=
    List.filter (fun t => has_field t SourcesField)
                (members (component request)) in
  source_files <-
    MultiGet
      (map (fun t =>
              Get_SourceFiles
                {| sources_fields := [get t SourcesField];
                   for_sources_types := [JavaSourceField];
                   enable_codegen := true |})
           component_members_with_sources) ;;
  let component_members_and_source_files :=
    zip component_members_with_sources source_files in
  let component_members_and_java_source_files :=
    List.filter
      (fun ts => negb (bool_decide
                         (snapshot_digest (snapshot (snd ts)) = EMPTY_DIGEST)))
      component_members_and_source_files in
  if negb (seq_truthy component_members_and_java_source_files)
  then
    (* If the component has no sources, it is acting as an alias for its
       dependencies: return their merged classpaths. *)
    dependencies_digest <-
      Get (Get_Digest_MergeDigests (map digest direct_dependency_classfiles)) ;;
    Ret {| description := CoarsenedTarget_str (component request);
           result := SUCCEEDED;
           output := Some {| digest := dependencies_digest |};
           exit_code := 0 |}
  else
  let filter_coords :=
    flat_map
      (fun item =>
         map Coordinate_from_jvm_artifact_target
             (List.filter JvmArtifactFieldSet_is_applicable (members item)))
      (CoarsenedTargets_closure (dependencies (component request))) in
  unfiltered_lockfile <-
    Get (Get_CoursierResolvedLockfile_Key (resolve request)) ;;
  lockfile <-
    Get (Get_CoursierResolvedLockfile_Filter
           {| filter_coordinates := filter_coords;
              filter_lockfile := unfiltered_lockfile |}) ;;
  let dest_dir := "classfiles" in
  joined <-
    MultiGet3
      (Get_MaterializedClasspath
         {| prefix := "__thirdpartycp"; lockfiles := [lockfile] |})
      (Get_Digest_MergeDigests (map digest direct_dependency_classfiles))
      (Get_Digest_CreateDigest [{| directory_path := dest_dir |}]) ;;
  let '(materialized_classpath,
        merged_direct_dependency_classpath_digest,
        dest_dir_digest) := joined in
  prefixed_direct_dependency_classpath <-
    Get (Get_Snapshot_AddPrefix merged_direct_dependency_classpath_digest
                                "__usercp") ;;
  let classpath_arg :=
    join ":" (files prefixed_direct_dependency_classpath
              ++ classpath_entries materialized_classpath) in
  merged_digest <-
    Get (Get_Digest_MergeDigests
           ([snapshot_digest prefixed_direct_dependency_classpath;
             materialized_digest materialized_classpath;
             dest_dir_digest;
             jdk_digest jdk_setup]
            ++ map (fun ts => snapshot_digest (snapshot (snd ts)))
                   component_members_and_java_source_files)) ;;
  (* Compile. *)
  compile_result <-
    Get (Get_FallibleProcessResult
           {| argv :=
                jdk_args jdk_setup bash
                         [java_home jdk_setup +:+ "/lib/tools.jar"]
                ++ ["com.sun.tools.javac.Main"]
                ++ (if str_truthy classpath_arg
                    then ["-cp"; classpath_arg] else [])
                ++ ["-d"; dest_dir]
                ++ sorted
                     (chain_from_iterable
                        (map (fun ts => files (snapshot (snd ts)))
                             component_members_and_java_source_files));
              input_digest := merged_digest;
              use_nailgun := Some (jdk_digest jdk_setup);
              append_only_caches := Some (jdk_append_only_caches jdk_setup);
              env := Some (jdk_env jdk_setup);
              output_directories := Some [dest_dir];
              output_files := None;
              process_description :=
                "Compile " +:+ CoarsenedTarget_str (component request)
                +:+ " with javac";
              level := DEBUG |}) ;;
  if negb (process_exit_code compile_result =? 0)
  then
    Ret (from_fallible_process_result
           (CoarsenedTarget_str (component request)) compile_result None)
  else
  (* Jar. *)
  output_snapshot <-
    Get (Get_Snapshot_Digest (process_output_digest compile_result)) ;;
  let output_file :=
    representative_path_safe_spec (component request) +:+ ".jar" in
  jar_output_digest <-
    (if seq_truthy (files output_snapshot)
     then
       jar_result <-
         Get (Get_ProcessResult
                {| argv :=
                     [bash_path bash;
                      "-c";
                      join " " ["cd"; dest_dir; ";"; zip_path zip_binary;
                                "-r"; "../" +:+ output_file; "."]];
                   input_digest := process_output_digest compile_result;
                   use_nailgun := None;
                   append_only_caches := None;
                   env := None;
                   output_directories := None;
                   output_files := Some [output_file];
                   process_description :=
                     "Capture outputs of "
                     +:+ CoarsenedTarget_str (component request)
                     +:+ " for javac";
                   level := TRACE |}) ;;
       Ret (output_digest jar_result)
     else
       (* If there was no output, then do not create a jar file. *)
       Ret EMPTY_DIGEST) ;;
  Ret (from_fallible_process_result
         (CoarsenedTarget_str (component request))
         compile_result
         (Some {| digest := jar_output_digest |})).

(** ** The engine side *)

(** The collaborators of section 6 of the specification, each a function
    from the request it serves to its answer. *)
Record Engine := {
  source_files : SourceFilesRequest -> SourceFiles;
  merge_digests : list Digest -> Digest;
  create_digest : list Directory -> Digest;
  add_prefix : Digest -> string -> Snapshot;
  digest_snapshot : Digest -> Snapshot;
  coursier_resolve : CoursierResolveKey -> CoursierResolvedLockfile;
  filter_dependencies : FilterDependenciesRequest -> CoursierResolvedLockfile;
  materialize_classpath : MaterializedClasspathRequest -> MaterializedClasspath;
  execute_fallible : Process -> FallibleProcessResult;
  execute : Process -> ProcessResult;
}.

(** One served request, whatever its answer type. *)
Inductive Event :=
| Requested {B} (q : Request B).

(** [take_out i xs]: the [i]-th element of [xs] and the others. *)
Fixpoint take_out {X} (i : nat) (xs : list X) : option (X * list X) :=
  match xs, i with
  | [], _ => None
  | x :: xs', O => Some (x, xs')
  | x :: xs', S j =>
      match take_out j xs' with
      | Some (y, rest) => Some (y, x :: rest)
      | None => None
      end
  end.

(** The order in which the requests of one [MultiGet] complete: each pick
    names the next one to complete among those still pending; what is left
    when the picks run out completes in the order of issue. *)
Fixpoint completion_order {X} (picks : list nat) (xs : list X) : list X :=
  match picks with
  | [] => xs
  | i :: picks' =>
      match take_out i xs with
      | Some (x, rest) => x :: completion_order picks' rest
      | None => completion_order picks' xs
      end
  end.

(** A scheduler chooses the picks for every batch. *)
Definition Scheduler := list Event -> list nat.

Definition logged (scheduler : Scheduler) (batch : list Event) : list Event :=
  completion_order (scheduler batch) batch.

Section Run.
Variable compile : CompileJavaSourceRequest -> option FallibleClasspathEntry.
Variable engine : Engine.
Variable scheduler : Scheduler.

(** The answer to one request.  Compile requests go to [compile], which
    may have no answer; the collaborators always answer. *)
Definition answer {B} (q : Request B) : option B :=
  match q in Request B0 return option B0 with
  | Get_FallibleClasspathEntry r => compile r
  | Get_SourceFiles r => Some (source_files engine r)
  | Get_Digest_MergeDigests ds => Some (merge_digests engine ds)
  | Get_Digest_CreateDigest es => Some (create_digest engine es)
  | Get_Snapshot_AddPrefix d p => Some (add_prefix engine d p)
  | Get_Snapshot_Digest d => Some (digest_snapshot engine d)
  | Get_CoursierResolvedLockfile_Key k => Some (coursier_resolve engine k)
  | Get_CoursierResolvedLockfile_Filter r => Some (filter_dependencies engine r)
  | Get_MaterializedClasspath r => Some (materialize_classpath engine r)
  | Get_FallibleProcessResult p => Some (execute_fallible engine p)
  | Get_ProcessResult p => Some (execute engine p)
  end.

(** Running a rule body: its value and the requests it had served, in
    the order they completed.  The answers of a [MultiGet] come back in
    the order of issue. *)
Fixpoint run {A} (m : Rule A) : option (A * list Event) :=
  match m with
  | Ret a => Some (a, [])
  | Await q k =>
      match answer q with
      | None => None
      | Some b =>
          match run (k b) with
          | None => None
          | Some (a, t) => Some (a, Requested q :: t)
          end
      end
  | AwaitAll qs k =>
      match mapM answer qs with
      | None => None
      | Some bs =>
          match run (k bs) with
          | None => None
          | Some (a, t) =>
              Some (a, logged scheduler (map (fun q => Requested q) qs) ++ t)
          end
      end
  | AwaitAll3 q1 q2 q3 k =>
      match answer q1, answer q2, answer q3 with
      | Some b1, Some b2, Some b3 =>
          match run (k (b1, b2, b3)) with
          | None => None
          | Some (a, t) =>
              Some (a, logged scheduler
                         [Requested q1; Requested q2; Requested q3] ++ t)
          end
      | _, _, _ => None
      end
  end.

End Run.

(** Modelled from the spec: the engine that routes a compile request to a
    rule is outside javac.py.  Sections 2 and 4.1 of the
    specification: each dependency resolution is itself an instance of
    this whole pipeline, under the same resolve key.  [fuel] bounds the
    depth of the nesting; the log is that of the outermost instance. *)
Fixpoint execute_rule (engine : Engine) (scheduler : Scheduler)
    (bash : BashBinary) (jdk_setup : JdkSetup) (zip_binary : ZipBinary)
    (fuel : nat) (request : CompileJavaSourceRequest)
    : option (FallibleClasspathEntry * list Event) :=
  match fuel with
  | O => None
  | S fuel' =>
      run (fun r => fst <$> execute_rule engine scheduler bash jdk_setup
                             zip_binary fuel' r)
          engine scheduler
          (compile_java_source bash jdk_setup zip_binary request)
  end.

(** The height of a component in the dependency graph. *)
Fixpoint height (c : CoarsenedTarget) : nat :=
  match c with
  | Build_CoarsenedTarget _ deps =>
      S (foldr (fun d n => Nat.max (height d) n) O deps)
  end.

(** ** Reading a log *)

Definition compile_request (e : Event) : option CompileJavaSourceRequest :=
  match e with
  | Requested q =>
      match q with Get_FallibleClasspathEntry r => Some r | _ => None end
  end.

Definition compiler_invocation (e : Event) : option Process :=
  match e with
  | Requested q =>
      match q with Get_FallibleProcessResult p => Some p | _ => None end
  end.

Definition archiver_invocation (e : Event) : option Process :=
  match e with
  | Requested q =>
      match q with Get_ProcessResult p => Some p | _ => None end
  end.

Definition filter_request (e : Event) : option FilterDependenciesRequest :=
  match e with
  | Requested q =>
      match q with
      | Get_CoursierResolvedLockfile_Filter r => Some r
      | _ => None
      end
  end.

Definition materialize_request (e : Event)
    : option MaterializedClasspathRequest :=
  match e with
  | Requested q =>
      match q with Get_MaterializedClasspath r => Some r | _ => None end
  end.

Definition compile_requests (log : list Event) := omap compile_request log.
Definition compiler_invocations (log : list Event) :=
  omap compiler_invocation log.
Definition archiver_invocations (log : list Event) :=
  omap archiver_invocation log.
Definition filter_requests (log : list Event) := omap filter_request log.
Definition materialize_requests (log : list Event) :=
  omap materialize_request log.

(** [returns request entry log]: the rule, run by the engine for
    [request], returns [entry] after serving [log]. *)
Definition returns (engine : Engine) (scheduler : Scheduler)
    (bash : BashBinary) (jdk_setup : JdkSetup) (zip_binary : ZipBinary)
    (request : CompileJavaSourceRequest) (entry : FallibleClasspathEntry)
    (log : list Event) : Prop :=
  exists fuel,
    execute_rule engine scheduler bash jdk_setup zip_binary fuel request
    = Some (entry, log).

(** ** The values along the pipeline

    Each is what the rule computes at that point, written as a function
    of the collaborators' answers; [run_compile_java_source] below shows
    that a run of the rule is made of exactly these. *)

Section Pipeline.
Variable engine : Engine.
Variable scheduler : Scheduler.
Variable bash : BashBinary.
Variable jdk_setup : JdkSetup.
Variable zip_binary : ZipBinary.
Variable request : CompileJavaSourceRequest.

Definition dependency_requests : list CompileJavaSourceRequest :=
  map (fun dep => {| component := dep; resolve := resolve request |})
      (dependencies (component request)).

(** The classpath entries the dependency entries carry. *)
Definition classfiles (entries : list FallibleClasspathEntry)
    : list ClasspathEntry :=
  omap output entries.

Definition members_with_sources : list Target :=
  List.filter (fun t => has_field t SourcesField)
              (members (component request)).

Definition sources_request (t : Target) : SourceFilesRequest :=
  {| sources_fields := [get t SourcesField];
     for_sources_types := [JavaSourceField];
     enable_codegen := true |}.

Definition contributes (ts : Target * SourceFiles) : bool :=
  negb (bool_decide (snapshot_digest (snapshot (snd ts)) = EMPTY_DIGEST)).

(** The members that contribute sources, each with its sources. *)
Definition members_and_java_source_files : list (Target * SourceFiles) :=
  List.filter contributes
    (zip members_with_sources
         (map (fun t => source_files engine (sources_request t))
              members_with_sources)).

Definition third_party_coordinates : list Coordinate :=
  flat_map
    (fun item =>
       map Coordinate_from_jvm_artifact_target
           (List.filter JvmArtifactFieldSet_is_applicable (members item)))
    (CoarsenedTargets_closure (dependencies (component request))).

Definition lockfile_filter_request : FilterDependenciesRequest :=
  {| filter_coordinates := third_party_coordinates;
     filter_lockfile := coursier_resolve engine (resolve request) |}.

Definition classpath_request : MaterializedClasspathRequest :=
  {| prefix := "__thirdpartycp";
     lockfiles := [filter_dependencies engine lockfile_filter_request] |}.

Definition third_party_classpath : MaterializedClasspath :=
  materialize_classpath engine classpath_request.

Definition merged_dependencies (entries : list FallibleClasspathEntry)
    : Digest :=
  merge_digests engine (map digest (classfiles entries)).

Definition user_classpath (entries : list FallibleClasspathEntry)
    : Snapshot :=
  add_prefix engine (merged_dependencies entries) "__usercp".

Definition classpath_string (entries : list FallibleClasspathEntry)
    : string :=
  join ":" (files (user_classpath entries)
            ++ classpath_entries third_party_classpath).

Definition javac_input_digests (entries : list FallibleClasspathEntry)
    : list Digest :=
  [snapshot_digest (user_classpath entries);
   materialized_digest third_party_classpath;
   create_digest engine [{| directory_path := "classfiles" |}];
   jdk_digest jdk_setup]
  ++ map (fun ts => snapshot_digest (snapshot (snd ts)))
         members_and_java_source_files.

Definition javac_process (entries : list FallibleClasspathEntry) : Process :=
  {| argv :=
       jdk_args jdk_setup bash [java_home jdk_setup +:+ "/lib/tools.jar"]
       ++ ["com.sun.tools.javac.Main"]
       ++ (if str_truthy (classpath_string entries)
           then ["-cp"; classpath_string entries] else [])
       ++ ["-d"; "classfiles"]
       ++ sorted (chain_from_iterable
                    (map (fun ts => files (snapshot (snd ts)))
                         members_and_java_source_files));
     input_digest := merge_digests engine (javac_input_digests entries);
     use_nailgun := Some (jdk_digest jdk_setup);
     append_only_caches := Some (jdk_append_only_caches jdk_setup);
     env := Some (jdk_env jdk_setup);
     output_directories := Some ["classfiles"];
     output_files := None;
     process_description :=
       "Compile " +:+ CoarsenedTarget_str (component request)
       +:+ " with javac";
     level := DEBUG |}.

Definition jar_name : string :=
  representative_path_safe_spec (component request) +:+ ".jar".

Definition jar_process (compile_result : FallibleProcessResult) : Process :=
  {| argv :=
       [bash_path bash;
        "-c";
        join " " ["cd"; "classfiles"; ";"; zip_path zip_binary;
                  "-r"; "../" +:+ jar_name; "."]];
     input_digest := process_output_digest compile_result;
     use_nailgun := None;
     append_only_caches := None;
     env := None;
     output_directories := None;
     output_files := Some [jar_name];
     process_description :=
       "Capture outputs of " +:+ CoarsenedTarget_str (component request)
       +:+ " for javac";
     level := TRACE |}.

(** The segments of the log. *)
Definition dependency_log : list Event :=
  logged scheduler
    (map (fun r => Requested (Get_FallibleClasspathEntry r))
         dependency_requests).

Definition sources_log : list Event :=
  logged scheduler
    (map (fun t => Requested (Get_SourceFiles (sources_request t)))
         members_with_sources).

Definition assembly_log (entries : list FallibleClasspathEntry)
    : list Event :=
  [Requested (Get_CoursierResolvedLockfile_Key (resolve request));
   Requested (Get_CoursierResolvedLockfile_Filter lockfile_filter_request)]
  ++ logged scheduler
       [Requested (Get_MaterializedClasspath classpath_request);
        Requested (Get_Digest_MergeDigests (map digest (classfiles entries)));
        Requested (Get_Digest_CreateDigest
                     [{| directory_path := "classfiles" |}])]
  ++ [Requested (Get_Snapshot_AddPrefix (merged_dependencies entries)
                                        "__usercp");
      Requested (Get_Digest_MergeDigests (javac_input_digests entries));
      Requested (Get_FallibleProcessResult (javac_process entries))].

Definition dependency_failed_entry : FallibleClasspathEntry :=
  {| description := CoarsenedTarget_str (component request);
     result := DEPENDENCY_FAILED;
     output := None;
     exit_code := 1 |}.

Definition alias_entry (entries : list FallibleClasspathEntry)
    : FallibleClasspathEntry :=
  {| description := CoarsenedTarget_str (component request);
     result := SUCCEEDED;
     output := Some {| digest := merged_dependencies entries |};
     exit_code := 0 |}.

(** What a run comes to once the dependency entries are in. *)
Definition outcome (entries : list FallibleClasspathEntry)
    : FallibleClasspathEntry * list Event :=
  if negb (length (classfiles entries) =? length entries)%nat then
    (dependency_failed_entry, dependency_log)
  else if negb (seq_truthy members_and_java_source_files) then
    (alias_entry entries,
     dependency_log ++ sources_log
     ++ [Requested (Get_Digest_MergeDigests
                      (map digest (classfiles entries)))])
  else
    let compile_result := execute_fallible engine (javac_process entries) in
    if negb (process_exit_code compile_result =? 0) then
      (from_fallible_process_result
         (CoarsenedTarget_str (component request)) compile_result None,
       dependency_log ++ sources_log ++ assembly_log entries)
    else
      let output_snapshot :=
        digest_snapshot engine (process_output_digest compile_result) in
      if seq_truthy (files output_snapshot) then
        (from_fallible_process_result
           (CoarsenedTarget_str (component request)) compile_result
           (Some {| digest :=
                      output_digest
                        (execute engine (jar_process compile_result)) |}),
         dependency_log ++ sources_log ++ assembly_log entries
         ++ [Requested (Get_Snapshot_Digest
                          (process_output_digest compile_result));
             Requested (Get_ProcessResult (jar_process compile_result))])
      else
        (from_fallible_process_result
           (CoarsenedTarget_str (component request)) compile_result
           (Some {| digest := EMPTY_DIGEST |}),
         dependency_log ++ sources_log ++ assembly_log entries
         ++ [Requested (Get_Snapshot_Digest
                          (process_output_digest compile_result))]).

End Pipeline.

End Model.

(** ** More readings of a log, and the dependency relation *)

Section Reading.
Context `{Host}.

Definition source_request (e : Event) : option SourceFilesRequest :=
  match e with
  | Requested q => match q with Get_SourceFiles r => Some r | _ => None end
  end.

Definition source_requests (log : list Event) := omap source_request log.

Definition merge_request (e : Event) : option (list Digest) :=
  match e with
  | Requested q =>
      match q with Get_Digest_MergeDigests ds => Some ds | _ => None end
  end.

Definition merge_requests (log : list Event) := omap merge_request log.

(** [depends_on c d]: [d] is reached from [c] through one or more
    [dependencies] edges. *)
Inductive depends_on : CoarsenedTarget -> CoarsenedTarget -> Prop :=
| depends_direct c d : In d (dependencies c) -> depends_on c d
| depends_step c d e :
    In d (dependencies c) -> depends_on d e -> depends_on c e.

End Reading.

(** [s.endswith(suffix)]: some tail of [s], possibly all of it or none of
    it, is [suffix]. *)
Fixpoint endswith (s suffix : string) : bool :=
  String.eqb s suffix
  || match s with
     | EmptyString => false
     | String _ s' => endswith s' suffix
     end.

(** * The rustfmt rule

    [rustfmt_fmt] of src/python/pants/backend/rust/lint/rustfmt/rules.py,
    over the same content store. *)

Module Rustfmt.
Section Model.
Context `{Host}.

(** What rules.py imports and never defines: the batch of a format
    request with its snapshot, the result of formatting, [pluralize] and
    the value of the skip field of a target. *)
Class Formatter := {
  Batch : Type;
  snapshot : Batch -> Snapshot;
  FmtResult : Type;
  pluralize : nat -> string -> string;
  SkipRustfmtField_value : Target -> bool;
}.

Context `{Formatter}.

(** [RustfmtFieldSet.opt_out]. *)
Definition opt_out (tgt : Target) : bool := SkipRustfmtField_value tgt.

(** [RustToolchainProcess] with the keyword arguments the rule passes. *)
Record RustToolchainProcess := {
  binary : string;
  args : list string;
  input_digest : Digest;
  output_files : list string;
  description : string;
  level : LogLevel;
}.

(** The rule body: it returns, awaits the result of a toolchain process,
    or awaits [FmtResult.create]. *)
Inductive Rule (A : Type) : Type :=
| Ret (a : A)
| Get_ProcessResult (p : RustToolchainProcess) (k : ProcessResult -> Rule A)
| FmtResult_create (request : Batch) (result : ProcessResult)
    (k : FmtResult -> Rule A).

Arguments Ret {A} a.
Arguments Get_ProcessResult {A} p k.
Arguments FmtResult_create {A} request result k.

Definition rustfmt_fmt (request : Batch) : Rule FmtResult :=
  (* [files] in the source; filter out Cargo.toml *)
  let rs_files :=
    List.filter (fun f => endswith f ".rs") (files (snapshot request)) in
  Get_ProcessResult
    {| binary := "rustfmt";
       args := rs_files;
       input_digest := snapshot_digest (snapshot request);
       output_files := files (snapshot request);
       description :=
         "Run rustfmt on " +:+ pluralize (length rs_files) "file" +:+ ".";
       level := DEBUG |}
    (fun result => FmtResult_create request result Ret).

(** The two collaborators. *)
Record Engine := {
  execute : RustToolchainProcess -> ProcessResult;
  create : Batch -> ProcessResult -> FmtResult;
}.

Inductive Event :=
| Executed (p : RustToolchainProcess)
| Created (request : Batch) (result : ProcessResult).

(** Running the rule body: its value and what it awaited, in order. *)
Fixpoint run {A} (engine : Engine) (m : Rule A) : A * list Event :=
  match m with
  | Ret a => (a, [])
  | Get_ProcessResult p k =>
      let '(a, log) := run engine (k (execute engine p)) in
      (a, Executed p :: log)
  | FmtResult_create request result k =>
      let '(a, log) := run engine (k (create engine request result)) in
      (a, Created request result :: log)
  end.

Definition executed (e : Event) : option RustToolchainProcess :=
  match e with Executed p => Some p | Created _ _ => None end.

End Model.
End Rustfmt.

(** ** A small concrete world

    A content store in which an image is the list of its file paths, a
    compiler that rejects [Broken.java] and emits nothing for
    [package-info.java], and a handful of components.  It serves to run
    the rule on concrete requests. *)

Module Demo.

Record DemoTarget := {
  name : string;
  java_sources : list string;
  jvm_artifact : option string;
}.

Definition under (dir : string) (paths : list string) : list string :=
  map (fun f => dir +:+ "/" +:+ f) paths.

#[local] Instance host : Host := {|
  Digest := list string;
  EMPTY_DIGEST := [];
  Target := DemoTarget;
  Field := list string;
  has_field t _ := negb (opt_truthy (jvm_artifact t));
  get t _ := java_sources t;
  Coordinate := string;
  JvmArtifactFieldSet_is_applicable t := opt_truthy (jvm_artifact t);
  Coordinate_from_jvm_artifact_target t := default "" (jvm_artifact t);
  CoursierResolveKey := string;
  CoursierResolvedLockfile := list string;
  JdkSetup := unit;
  jdk_digest _ := ["jdk/bin/java"];
  java_home _ := "jdk";
  jdk_args _ b cp :=
    [bash_path b; "jdk/bin/java"; "-cp"; join ":" ("nailgun.jar" :: cp)];
  jdk_append_only_caches _ := [("coursier", ".cache/coursier")];
  jdk_env _ := [("PATH", "/usr/bin")];
|}.

Fixpoint closure_of (c : CoarsenedTarget) : list CoarsenedTarget :=
  match c with
  | Build_CoarsenedTarget _ deps => c :: flat_map closure_of deps
  end.

Definition has (x : string) (xs : list string) : bool :=
  existsb (String.eqb x) xs.

Definition str_of (c : CoarsenedTarget) : string :=
  join ", " (map name (members c)).

(** Each component once, by its string form. *)
Fixpoint unique (seen : list string) (cs : list CoarsenedTarget)
    : list CoarsenedTarget :=
  match cs with
  | [] => []
  | c :: cs' =>
      if has (str_of c) seen then unique seen cs'
      else c :: unique (str_of c :: seen) cs'
  end.

#[local] Instance graph : Graph := {|
  CoarsenedTarget_str := str_of;
  representative_path_safe_spec c :=
    match members c with [] => "" | t :: _ => name t end;
  CoarsenedTargets_closure cs := unique [] (flat_map closure_of cs);
|}.

Definition engine : Engine := {|
  source_files r :=
    {| snapshot := {| snapshot_digest := concat (sources_fields r);
                      files := concat (sources_fields r) |} |};
  merge_digests ds := concat ds;
  create_digest es := map directory_path es;
  add_prefix d p := {| snapshot_digest := under p d; files := under p d |};
  digest_snapshot d := {| snapshot_digest := d; files := d |};
  coursier_resolve k := ["junit.jar"; "guava.jar"];
  filter_dependencies r :=
    List.filter (fun jar => has jar (filter_coordinates r))
                (filter_lockfile r);
  materialize_classpath r :=
    {| materialized_digest := under (prefix r) (concat (lockfiles r));
       classpath_entries := under (prefix r) (concat (lockfiles r)) |};
  execute_fallible p :=
    if has "Broken.java" (argv p)
    then {| process_exit_code := 1; process_output_digest := [] |}
    else if has "package-info.java" (argv p)
    then {| process_exit_code := 0; process_output_digest := [] |}
    else {| process_exit_code := 0;
            process_output_digest := ["classfiles/Main.class"] |};
  execute p := {| output_digest := default [] (output_files p) |};
|}.

(** Completion out of the order of issue: the second pending request
    first, then the first. *)
Definition scheduler : Scheduler := fun _ => [1%nat; 0%nat].

Definition bash : BashBinary := {| bash_path := "/bin/bash" |}.
Definition zip_binary : ZipBinary := {| zip_path := "/usr/bin/zip" |}.

Definition component_of (n : string) (srcs : list string)
    (deps : list CoarsenedTarget) : CoarsenedTarget :=
  {| members := [{| name := n; java_sources := srcs; jvm_artifact := None |}];
     dependencies := deps |}.

Definition guava : CoarsenedTarget :=
  {| members := [{| name := "3rdparty.guava"; java_sources := [];
                    jvm_artifact := Some "guava.jar" |}];
     dependencies := [] |}.

Definition broken : CoarsenedTarget :=
  component_of "lib.broken" ["Broken.java"] [].
Definition lib : CoarsenedTarget :=
  component_of "lib.ok" ["Lib.java"; "Base.java"] [guava].
Definition app : CoarsenedTarget :=
  component_of "app" ["Main.java"] [lib; guava].
Definition alias_of_broken : CoarsenedTarget :=
  component_of "alias.broken" [] [broken].
Definition alias_of_lib : CoarsenedTarget :=
  component_of "alias.lib" [] [lib; guava].
Definition package_info : CoarsenedTarget :=
  component_of "pkg" ["package-info.java"] [].
Definition uses_broken : CoarsenedTarget :=
  component_of "uses.broken" ["Main.java"] [lib; broken].

Definition request_for (c : CoarsenedTarget) : CompileJavaSourceRequest :=
  {| component := c; resolve := "default" |}.

(** What the engine of the concrete world answers to a compile request
    from a rule that is itself two levels up. *)
Definition demo_compile (r : CompileJavaSourceRequest)
    : option FallibleClasspathEntry :=
  fst <$> execute_rule engine scheduler bash tt
            zip_binary 2 r.

Definition lib_entry : FallibleClasspathEntry :=
  {| description := "lib.ok";
     result := SUCCEEDED;
     output := Some {| digest := ["lib.ok.jar"] |};
     exit_code := 0 |}.

Definition guava_entry : FallibleClasspathEntry :=
  {| description := "3rdparty.guava";
     result := SUCCEEDED;
     output := Some {| digest := [] |};
     exit_code := 0 |}.

(** An entry as no run of the rule builds it: marked [SUCCEEDED], yet
    without a classpath entry. *)
Definition mislabelled_entry : FallibleClasspathEntry :=
  {| description := "dep";
     result := SUCCEEDED;
     output := None;
     exit_code := 0 |}.

Definition mislabelled_compile (r : CompileJavaSourceRequest)
    : option FallibleClasspathEntry :=
  Some mislabelled_entry.

End Demo.

(** A crate for the formatter, in the same concrete store. *)
Module RustDemo.

#[local] Existing Instance Demo.host.

#[local] Instance formatter : Rustfmt.Formatter := {|
  Rustfmt.Batch := Snapshot;
  Rustfmt.snapshot b := b;
  Rustfmt.FmtResult := Snapshot * list string;
  Rustfmt.pluralize n item :=
    NilZero.string_of_uint (Nat.to_uint n) +:+ " " +:+ item
    +:+ (if (n =? 1)%nat then "" else "s");
  Rustfmt.SkipRustfmtField_value _ := false;
|}.

Definition engine : Rustfmt.Engine := {|
  Rustfmt.execute p := {| output_digest := Rustfmt.output_files p |};
  Rustfmt.create request result := (request, output_digest result);
|}.

Definition snapshot_of (paths : list string) : Snapshot :=
  {| snapshot_digest := paths; files := paths |}.

Definition crate : Snapshot :=
  snapshot_of ["Cargo.toml"; "README.rs.md"; "src/lib.rs"; "src/main.rs"].

Definition manifest_only : Snapshot := snapshot_of ["Cargo.toml"].

End RustDemo.

(** A component two dependency edges above the one that fails to
    compile, and an engine that answers no compile request. *)
Module ChainDemo.

#[local] Existing Instance Demo.host.
#[local] Existing Instance Demo.graph.

Definition top : CoarsenedTarget :=
  Demo.component_of "top" ["Top.java"] [Demo.uses_broken].

Definition no_answer (r : CompileJavaSourceRequest)
    : option FallibleClasspathEntry := None.

End ChainDemo.


(** * Facts *)

Section Facts.
Context `{Host} `{!Graph}.

(** ** A run of the rule, unfolded *)

Lemma run_bind {A C} compile engine scheduler (m : Rule A) (f : A -> Rule C) :
  run compile engine scheduler (bind m f) =
  match run compile engine scheduler m with
  | None => None
  | Some (a, t1) =>
      match run compile engine scheduler (f a) with
      | None => None
      | Some (c, t2) => Some (c, t1 ++ t2)
      end
  end.
Proof.
  induction m as [a | B q k IH | B qs k IH | B1 B2 B3 q1 q2 q3 k IH];
    cbn [bind run].
  - destruct (run _ _ _ (f a)) as [[c t2] |]; reflexivity.
  - destruct (answer _ _ q) as [b |]; [| reflexivity].
    rewrite IH. destruct (run _ _ _ (k b)) as [[a t1] |]; [| reflexivity].
    destruct (run _ _ _ (f a)) as [[c t2] |]; reflexivity.
  - destruct (mapM _ qs) as [bs |]; [| reflexivity].
    rewrite IH. destruct (run _ _ _ (k bs)) as [[a t1] |]; [| reflexivity].
    destruct (run _ _ _ (f a)) as [[c t2] |]; [| reflexivity].
    rewrite <- app_assoc. reflexivity.
  - destruct (answer _ _ q1) as [b1 |]; [| reflexivity].
    destruct (answer _ _ q2) as [b2 |]; [| reflexivity].
    destruct (answer _ _ q3) as [b3 |]; [| reflexivity].
    rewrite IH.
    destruct (run _ _ _ (k (b1, b2, b3))) as [[a t1] |]; [| reflexivity].
    destruct (run _ _ _ (f a)) as [[c t2] |]; [| reflexivity].
    rewrite <- app_assoc. reflexivity.
Qed.

Lemma mapM_answer_compile {X} compile engine
    (f : X -> CompileJavaSourceRequest) (xs : list X) :
  mapM (answer compile engine)
       (map (fun x => Get_FallibleClasspathEntry (f x)) xs)
  = mapM compile (map f xs).
Proof.
  induction xs as [| x xs IH]; [reflexivity |].
  cbn. destruct (compile (f x)); [| reflexivity]. cbn.
  cbn in IH. rewrite IH. reflexivity.
Qed.

Lemma mapM_answer_sources compile engine (f : Target -> SourceFilesRequest)
    (ts : list Target) :
  mapM (answer compile engine) (map (fun t => Get_SourceFiles (f t)) ts)
  = Some (map (fun t => source_files engine (f t)) ts).
Proof.
  induction ts as [| t ts IH]; [reflexivity |].
  cbn. cbn in IH. rewrite IH. reflexivity.
Qed.

Lemma classfiles_truthy (entries : list FallibleClasspathEntry) :
  omap (fun fcc => if opt_truthy (output fcc) then output fcc else None)
       entries
  = classfiles entries.
Proof.
  unfold classfiles. induction entries as [| e entries IH]; [reflexivity |].
  cbn. rewrite IH. destruct (output e); reflexivity.
Qed.

Theorem run_compile_java_source compile engine scheduler bash jdk_setup
    zip_binary request :
  run compile engine scheduler
      (compile_java_source bash jdk_setup zip_binary request)
  = outcome engine scheduler bash jdk_setup zip_binary request
      <$> mapM compile (dependency_requests request).
Proof.
  unfold compile_java_source, MultiGet, MultiGet3, Get.
  cbn [bind run].
  rewrite mapM_answer_compile, !map_map. fold (dependency_requests request).
  destruct (mapM compile (dependency_requests request)) as [entries |];
    [| reflexivity].
  cbn [fmap option_fmap option_map].
  rewrite classfiles_truthy.
  replace (logged scheduler (map _ (dependencies (component request))))
    with (dependency_log scheduler request)
    by (unfold dependency_log, dependency_requests;
        rewrite map_map; reflexivity).
  unfold outcome.
  destruct (negb (length (classfiles entries) =? length entries)%nat).
  { cbn [run]. rewrite app_nil_r. reflexivity. }
  cbn [bind run].
  rewrite mapM_answer_sources.
  replace (logged scheduler (map (fun q : Request SourceFiles => Requested q) _))
    with (sources_log scheduler request)
    by (unfold sources_log, members_with_sources, sources_request;
        rewrite map_map; reflexivity).
  unfold members_and_java_source_files, members_with_sources,
    sources_request, contributes.
  match goal with
  | |- context [negb (seq_truthy ?l)] => destruct (negb (seq_truthy l))
  end.
  { cbn [run answer]. reflexivity. }
  cbn [bind run answer].
  change (execute_fallible engine _)
    with (execute_fallible engine
            (javac_process engine bash jdk_setup request entries)).
  set (compile_result :=
         execute_fallible engine
           (javac_process engine bash jdk_setup request entries)).
  destruct (negb (process_exit_code compile_result =? 0)).
  { cbn [run]. reflexivity. }
  cbn [bind run answer].
  destruct (seq_truthy (files (digest_snapshot engine
                                 (process_output_digest compile_result)))).
  - cbn [bind run answer].
    unfold assembly_log. rewrite <- !app_assoc. reflexivity.
  - cbn [bind run answer].
    unfold assembly_log. rewrite <- !app_assoc. reflexivity.
Qed.

(** ** Completion orders *)

Lemma take_out_Permutation {X} (i : nat) (xs : list X) x rest :
  take_out i xs = Some (x, rest) -> xs ≡ₚ x :: rest.
Proof.
  revert i x rest. induction xs as [| y ys IH]; intros i x rest.
  - destruct i; discriminate.
  - destruct i as [| j]; cbn.
    + intros [= <- <-]. reflexivity.
    + destruct (take_out j ys) as [[z zs] |] eqn:E; [| discriminate].
      intros [= <- <-]. rewrite (IH _ _ _ E). apply perm_swap.
Qed.

Lemma completion_order_Permutation {X} (picks : list nat) (xs : list X) :
  completion_order picks xs ≡ₚ xs.
Proof.
  revert xs. induction picks as [| i picks IH]; intros xs; cbn.
  - reflexivity.
  - destruct (take_out i xs) as [[x rest] |] eqn:E.
    + rewrite (take_out_Permutation _ _ _ _ E). constructor. apply IH.
    + apply IH.
Qed.

(** Every order of completion is the order of some picks. *)
Lemma take_out_In {X} (x : X) (xs : list X) :
  In x xs -> exists i rest, take_out i xs = Some (x, rest).
Proof.
  induction xs as [| y ys IH]; [intros [] |].
  intros [-> | Hin].
  - exists O, ys. reflexivity.
  - destruct (IH Hin) as (i & rest & Hi).
    exists (S i), (y :: rest). cbn. rewrite Hi. reflexivity.
Qed.

Lemma completion_order_complete {X} (xs ys : list X) :
  xs ≡ₚ ys -> exists picks, completion_order picks xs = ys.
Proof.
  revert xs. induction ys as [| y ys IH]; intros xs Hperm.
  - apply Permutation_nil_r in Hperm. subst xs. exists []. reflexivity.
  - assert (In y xs) as Hin.
    { apply list_elem_of_In. rewrite Hperm. left. }
    destruct (take_out_In y xs Hin) as (i & rest & Hi).
    pose proof (take_out_Permutation _ _ _ _ Hi) as Hrest.
    rewrite Hrest in Hperm. apply Permutation_cons_inv in Hperm.
    destruct (IH rest Hperm) as [picks Hpicks].
    exists (i :: picks). cbn. rewrite Hi, Hpicks. reflexivity.
Qed.

Lemma logged_Permutation scheduler (batch : list Event) :
  logged scheduler batch ≡ₚ batch.
Proof. apply completion_order_Permutation. Qed.

Lemma omap_nil_Permutation {X Y} (f : X -> option Y) (xs ys : list X) :
  xs ≡ₚ ys -> omap f ys = [] -> omap f xs = [].
Proof.
  intros Hp Hnil. apply Permutation_nil_r.
  rewrite <- Hnil. apply omap_Permutation. exact Hp.
Qed.

Lemma omap_logged_nil {Y} (f : Event -> option Y) scheduler batch :
  omap f batch = [] -> omap f (logged scheduler batch) = [].
Proof. apply omap_nil_Permutation, logged_Permutation. Qed.

Lemma omap_map_nil {X Y Z} (g : X -> Y) (f : Y -> option Z) (xs : list X) :
  (forall x, f (g x) = None) -> omap f (map g xs) = [].
Proof.
  intros Hf. induction xs as [| x xs IH]; [reflexivity |].
  cbn. rewrite Hf. exact IH.
Qed.

(** ** Dependency entries *)

Lemma classfiles_length_le (entries : list FallibleClasspathEntry) :
  (length (classfiles entries) <= length entries)%nat.
Proof.
  unfold classfiles. induction entries as [| e es IH]; cbn; [lia |].
  destruct (output e); cbn; lia.
Qed.

Lemma classfiles_all (entries : list FallibleClasspathEntry) :
  length (classfiles entries) = length entries
  <-> Forall (fun e => output e <> None) entries.
Proof.
  unfold classfiles. induction entries as [| e es IH]; cbn.
  - split; [constructor | reflexivity].
  - pose proof (classfiles_length_le es) as Hle. unfold classfiles in Hle.
    destruct (output e) as [c |] eqn:E; cbn.
    + split.
      * intros Hlen. constructor; [congruence |]. apply IH. lia.
      * intros Hall. inversion Hall; subst. f_equal. apply IH. assumption.
    + split.
      * intros Hlen. lia.
      * intros Hall. inversion Hall; subst. congruence.
Qed.

Lemma classfiles_some (entries : list FallibleClasspathEntry) :
  negb (length (classfiles entries) =? length entries)%nat = true
  <-> Exists (fun e => output e = None) entries.
Proof.
  rewrite negb_true_iff, Nat.eqb_neq, classfiles_all. split.
  - intros Hnot. induction entries as [| e es IH].
    + destruct Hnot. constructor.
    + destruct (output e) as [c |] eqn:E.
      * right. apply IH. intros Hall. apply Hnot.
        constructor; [congruence | assumption].
      * left. assumption.
  - intros Hex Hall. rewrite Forall_forall in Hall.
    apply Exists_exists in Hex as (e & Hin & Hnone).
    exact (Hall e Hin Hnone).
Qed.

Lemma classfiles_outputs (entries entries' : list FallibleClasspathEntry) :
  map output entries = map output entries' ->
  classfiles entries = classfiles entries'.
Proof.
  unfold classfiles. revert entries'.
  induction entries as [| e es IH]; intros [| e' es']; cbn; try discriminate.
  - reflexivity.
  - intros [= He Hes]. rewrite He, (IH _ Hes). reflexivity.
Qed.

(** ** What a log holds *)

Section Logs.
Variable engine : Engine.
Variable scheduler : Scheduler.
Variable bash : BashBinary.
Variable jdk_setup : JdkSetup.
Variable zip_binary : ZipBinary.
Variable request : CompileJavaSourceRequest.

Lemma omap_dependency_log {Y} (f : Event -> option Y) :
  (forall r, f (Requested (Get_FallibleClasspathEntry r)) = None) ->
  omap f (dependency_log scheduler request) = [].
Proof.
  intros Hf. apply omap_logged_nil, omap_map_nil. exact Hf.
Qed.

Lemma omap_sources_log {Y} (f : Event -> option Y) :
  (forall r, f (Requested (Get_SourceFiles r)) = None) ->
  omap f (sources_log scheduler request) = [].
Proof.
  intros Hf. apply omap_logged_nil.
  apply (omap_map_nil (fun t => Requested (Get_SourceFiles
                                             (sources_request t)))).
  intros t. apply Hf.
Qed.

Lemma compiler_invocations_assembly_log entries :
  compiler_invocations
    (assembly_log engine scheduler bash jdk_setup request entries)
  = [javac_process engine bash jdk_setup request entries].
Proof.
  unfold compiler_invocations, assembly_log.
  rewrite !omap_app. rewrite omap_logged_nil by reflexivity. reflexivity.
Qed.

Lemma archiver_invocations_assembly_log entries :
  archiver_invocations
    (assembly_log engine scheduler bash jdk_setup request entries) = [].
Proof.
  unfold archiver_invocations, assembly_log.
  rewrite !omap_app. rewrite omap_logged_nil by reflexivity. reflexivity.
Qed.

(** The compiler is asked for at most once, and only past the alias
    check. *)
Lemma compiler_invocations_outcome entries :
  compiler_invocations
    (snd (outcome engine scheduler bash jdk_setup zip_binary request entries))
  = if negb (length (classfiles entries) =? length entries)%nat then []
    else if negb (seq_truthy (members_and_java_source_files engine request))
    then []
    else [javac_process engine bash jdk_setup request entries].
Proof.
  pose proof (omap_dependency_log compiler_invocation
                (fun _ => eq_refl)) as Hdep.
  pose proof (omap_sources_log compiler_invocation (fun _ => eq_refl)) as Hsrc.
  pose proof (compiler_invocations_assembly_log entries) as Hasm.
  unfold compiler_invocations in *. unfold outcome.
  repeat match goal with
         | |- context [if ?b then _ else _] => destruct b
         end;
    cbn [snd]; rewrite ?omap_app, ?Hdep, ?Hsrc, ?Hasm; reflexivity.
Qed.

(** The archiver is asked for only after a clean compile that left
    files. *)
Lemma archiver_invocations_outcome entries :
  archiver_invocations
    (snd (outcome engine scheduler bash jdk_setup zip_binary request entries))
  = let compile_result :=
      execute_fallible engine
        (javac_process engine bash jdk_setup request entries) in
    if negb (length (classfiles entries) =? length entries)%nat then []
    else if negb (seq_truthy (members_and_java_source_files engine request))
    then []
    else if negb (process_exit_code compile_result =? 0) then []
    else if seq_truthy (files (digest_snapshot engine
                                 (process_output_digest compile_result)))
    then [jar_process bash zip_binary request compile_result]
    else [].
Proof.
  pose proof (omap_dependency_log archiver_invocation
                (fun _ => eq_refl)) as Hdep.
  pose proof (omap_sources_log archiver_invocation (fun _ => eq_refl)) as Hsrc.
  pose proof (archiver_invocations_assembly_log entries) as Hasm.
  unfold archiver_invocations in *. unfold outcome. cbv zeta.
  repeat match goal with
         | |- context [if ?b then _ else _] => destruct b
         end;
    cbn [snd]; rewrite ?omap_app, ?Hdep, ?Hsrc, ?Hasm; reflexivity.
Qed.

(** An entry the rule returns carries a classpath entry exactly when it
    is [SUCCEEDED]. *)
Lemma outcome_output entries :
  let entry :=
    fst (outcome engine scheduler bash jdk_setup zip_binary request entries)
  in output entry = None <-> result entry <> SUCCEEDED.
Proof.
  unfold outcome. cbv zeta.
  destruct (negb (length (classfiles entries) =? length entries)%nat);
    [cbn; split; [discriminate | reflexivity] |].
  destruct (negb (seq_truthy _));
    [cbn; split; [discriminate | congruence] |].
  destruct (process_exit_code _ =? 0) eqn:Hexit; cbn [negb].
  - destruct (seq_truthy _); cbn; rewrite Hexit;
      (split; [discriminate | congruence]).
  - cbn. rewrite Hexit. split; [discriminate | reflexivity].
Qed.

End Logs.

(** ** The engine *)

Section Engine.
Variable engine : Engine.
Variable scheduler : Scheduler.
Variable bash : BashBinary.
Variable jdk_setup : JdkSetup.
Variable zip_binary : ZipBinary.

Local Abbreviation execute_rule' :=
  (execute_rule engine scheduler bash jdk_setup zip_binary).
Local Abbreviation returns' := (returns engine scheduler bash jdk_setup zip_binary).
Local Abbreviation outcome' := (outcome engine scheduler bash jdk_setup zip_binary).

Lemma execute_rule_S fuel request :
  execute_rule' (S fuel) request
  = outcome' request
      <$> mapM (fun r => fst <$> execute_rule' fuel r)
               (dependency_requests request).
Proof. cbn [execute_rule]. apply run_compile_java_source. Qed.

Lemma height_dependency (c d : CoarsenedTarget) :
  In d (dependencies c) -> (height d < height c)%nat.
Proof.
  destruct c as [ms deps]. cbn [dependencies height].
  induction deps as [| d' deps IH]; cbn; [tauto |].
  intros [-> | Hin]; [lia |]. specialize (IH Hin). lia.
Qed.

(** Enough fuel always gives a result. *)
Lemma execute_rule_total fuel request :
  (height (component request) <= fuel)%nat ->
  is_Some (execute_rule' fuel request).
Proof.
  revert request. induction fuel as [| fuel IH]; intros request Hfuel.
  - destruct (component request); cbn in Hfuel; lia.
  - rewrite execute_rule_S.
    assert (is_Some (mapM (fun r => fst <$> execute_rule' fuel r)
                          (dependency_requests request))) as [es Hes].
    { apply mapM_is_Some, Forall_forall. intros r Hr.
      unfold dependency_requests in Hr.
      apply list_elem_of_fmap in Hr as (d & -> & Hd).
      apply list_elem_of_In, height_dependency in Hd.
      destruct (IH {| component := d; resolve := resolve request |})
        as [x Hx]; [cbn; lia |].
      cbn. rewrite Hx. eexists. reflexivity. }
    rewrite Hes. eexists. reflexivity.
Qed.

(** More fuel does not change a result. *)
Lemma execute_rule_mono fuel fuel' request x :
  (fuel <= fuel')%nat ->
  execute_rule' fuel request = Some x ->
  execute_rule' fuel' request = Some x.
Proof.
  revert fuel' request x.
  induction fuel as [| fuel IH]; intros fuel' request x Hle Hrun;
    [discriminate |].
  destruct fuel' as [| fuel']; [lia |].
  rewrite execute_rule_S in *.
  destruct (mapM _ _) as [es |] eqn:Hes in Hrun; [| discriminate].
  enough (mapM (fun r => fst <$> execute_rule' fuel' r)
               (dependency_requests request) = Some es) as ->
    by exact Hrun.
  apply mapM_Some. apply mapM_Some in Hes.
  eapply Forall2_impl; [exact Hes |].
  intros r e He. cbn in *.
  destruct (execute_rule' fuel r) as [y |] eqn:Hy; [| discriminate].
  rewrite (IH fuel' r y); [exact He | lia | exact Hy].
Qed.

Lemma returns_total request :
  exists entry log, returns' request entry log.
Proof.
  destruct (execute_rule_total (height (component request)) request)
    as [[entry log] Hrun]; [lia |].
  exists entry, log, (height (component request)). exact Hrun.
Qed.

Lemma returns_functional request entry log entry' log' :
  returns' request entry log -> returns' request entry' log' ->
  entry = entry' /\ log = log'.
Proof.
  intros [n Hn] [m Hm].
  apply (execute_rule_mono n (Nat.max n m)) in Hn; [| lia].
  apply (execute_rule_mono m (Nat.max n m)) in Hm; [| lia].
  rewrite Hn in Hm. injection Hm as -> ->. split; reflexivity.
Qed.

(** The entries of the direct dependencies, once all have returned. *)
Lemma returns_dependencies request :
  exists entries,
    Forall2 (fun r e => exists log, returns' r e log)
            (dependency_requests request) entries
    /\ forall fuel, (height (component request) <= S fuel)%nat ->
         mapM (fun r => fst <$> execute_rule' fuel r)
              (dependency_requests request) = Some entries.
Proof.
  destruct (execute_rule_total (height (component request)) request)
    as [x Hx]; [lia |].
  remember (height (component request)) as h eqn:Hh.
  destruct h as [| n]; [discriminate |].
  rewrite execute_rule_S in Hx.
  destruct (mapM _ _) as [es |] eqn:Hes in Hx; [| discriminate].
  exists es. split.
  - apply mapM_Some in Hes. eapply Forall2_impl; [exact Hes |].
    intros r e He. cbn in He.
    destruct (execute_rule' n r) as [[e' log] |] eqn:Hr; [| discriminate].
    injection He as <-. exists log, n. exact Hr.
  - intros fuel Hfuel. apply mapM_Some. apply mapM_Some in Hes.
    eapply Forall2_impl; [exact Hes |].
    intros r e He. cbn in *.
    destruct (execute_rule' n r) as [y |] eqn:Hy; [| discriminate].
    rewrite (execute_rule_mono n fuel r y); [exact He | lia | exact Hy].
Qed.

(** Whatever the engine hands back for a component carries a classpath
    entry exactly when it is [SUCCEEDED]. *)
Lemma returns_output request entry log :
  returns' request entry log ->
  output entry = None <-> result entry <> SUCCEEDED.
Proof.
  intros [[| fuel] Hrun]; [discriminate |].
  rewrite execute_rule_S in Hrun.
  destruct (mapM _ _) as [es |]; [| discriminate].
  injection Hrun as Hrun. rewrite (surjective_pairing (outcome' request es)) in Hrun.
  injection Hrun as <- _. apply outcome_output.
Qed.

(** Every request returns what [outcome] makes of the entries that its
    dependencies return. *)
Lemma returns_outcome request :
  exists entries,
    Forall2 (fun r e => exists log, returns' r e log)
            (dependency_requests request) entries
    /\ returns' request (fst (outcome' request entries))
                        (snd (outcome' request entries)).
Proof.
  destruct (returns_dependencies request) as (entries & Hall & Hrun).
  exists entries. split; [exact Hall |].
  exists (S (height (component request))).
  rewrite execute_rule_S, Hrun by lia. cbn.
  rewrite <- surjective_pairing. reflexivity.
Qed.

End Engine.

Lemma outcome_dependency_failed engine scheduler bash jdk_setup zip_binary
    request entries :
  Exists (fun e => output e = None) entries ->
  outcome engine scheduler bash jdk_setup zip_binary request entries
  = (dependency_failed_entry request, dependency_log scheduler request).
Proof.
  intros Hex. apply classfiles_some in Hex. unfold outcome.
  rewrite Hex. reflexivity.
Qed.

Lemma outcome_alias engine scheduler bash jdk_setup zip_binary request
    entries :
  Forall (fun e => output e <> None) entries ->
  members_and_java_source_files engine request = [] ->
  outcome engine scheduler bash jdk_setup zip_binary request entries
  = (alias_entry engine request entries,
     dependency_log scheduler request ++ sources_log scheduler request
     ++ [Requested (Get_Digest_MergeDigests
                      (map digest (classfiles entries)))]).
Proof.
  intros Hall Halias. apply classfiles_all in Hall. unfold outcome.
  rewrite Hall, Nat.eqb_refl, Halias. reflexivity.
Qed.

(** A run that returns is the outcome for the entries it was handed. *)
Lemma run_outcome compile engine scheduler bash jdk_setup zip_binary request
    entry log :
  run compile engine scheduler
      (compile_java_source bash jdk_setup zip_binary request)
  = Some (entry, log) ->
  exists entries,
    mapM compile (dependency_requests request) = Some entries
    /\ outcome engine scheduler bash jdk_setup zip_binary request entries
       = (entry, log).
Proof.
  rewrite run_compile_java_source.
  destruct (mapM compile _) as [entries |]; [| discriminate].
  intros [= Hout]. exists entries. split; [reflexivity | exact Hout].
Qed.

#[local] Instance str_le_total : Total str_le.
Proof. intros a b. apply String.leb_total. Qed.

Lemma append_assoc (a b c : string) : (a +:+ b) +:+ c = a +:+ b +:+ c.
Proof.
  induction a as [| ch a IH]; [reflexivity |].
  change (String ch ((a +:+ b) +:+ c) = String ch (a +:+ b +:+ c)).
  f_equal. exact IH.
Qed.

Lemma join_app (sep : string) (xs ys : list string) :
  xs <> [] -> ys <> [] ->
  join sep (xs ++ ys) = join sep xs +:+ sep +:+ join sep ys.
Proof.
  intros Hxs Hys. unfold join.
  induction xs as [| x xs IH]; [congruence |].
  destruct xs as [| x' xs].
  - cbn. destruct ys; [congruence | reflexivity].
  - change (String.concat sep ((x :: x' :: xs) ++ ys))
      with (x +:+ sep +:+ String.concat sep ((x' :: xs) ++ ys)).
    rewrite IH by discriminate.
    change (String.concat sep (x :: x' :: xs))
      with (x +:+ sep +:+ String.concat sep (x' :: xs)).
    rewrite !append_assoc. reflexivity.
Qed.

(** * The claims *)

(** C1.  If the entry that any direct dependency of the requested
    component returns is [FAILED] or [DEPENDENCY_FAILED], the rule
    returns for the component an entry that is [DEPENDENCY_FAILED], has
    exit code 1 and carries no classpath entry; its log holds the
    requests for the dependencies and nothing else, so neither the
    compiler nor the archiver was invoked for the component. *)
Theorem dependency_failure_short_circuits engine scheduler bash jdk_setup
    zip_binary request dep entry log0 :
  In dep (dependencies (component request)) ->
  returns engine scheduler bash jdk_setup zip_binary
          {| component := dep; resolve := resolve request |} entry log0 ->
  result entry = FAILED \/ result entry = DEPENDENCY_FAILED ->
  exists log,
    returns engine scheduler bash jdk_setup zip_binary request
            {| description := CoarsenedTarget_str (component request);
               result := DEPENDENCY_FAILED;
               output := None;
               exit_code := 1 |}
            log
    /\ compiler_invocations log = []
    /\ archiver_invocations log = []
    /\ log ≡ₚ map (fun r => Requested (Get_FallibleClasspathEntry r))
                  (dependency_requests request).
Proof.
  intros Hdep Hentry Hfailed.
  destruct (returns_outcome engine scheduler bash jdk_setup zip_binary request)
    as (entries & Hall & Hrun).
  assert (Exists (fun e => output e = None) entries) as Hex.
  { assert ({| component := dep; resolve := resolve request |}
            ∈ dependency_requests request) as Hin.
    { unfold dependency_requests. apply list_elem_of_fmap.
      exists dep. split; [reflexivity | apply list_elem_of_In, Hdep]. }
    apply list_elem_of_lookup in Hin as [i Hi].
    destruct (Forall2_lookup_l _ _ _ _ _ Hall Hi) as (e & He & log' & Hret).
    destruct (returns_functional _ _ _ _ _ _ _ _ _ _ Hentry Hret) as [<- _].
    apply Exists_exists. exists entry. split.
    - eapply list_elem_of_lookup_2, He.
    - eapply returns_output; [exact Hentry |].
      destruct Hfailed as [-> | ->]; discriminate. }
  rewrite (outcome_dependency_failed _ _ _ _ _ _ _ Hex) in Hrun.
  exists (dependency_log scheduler request). split; [exact Hrun |].
  split; [apply omap_dependency_log; reflexivity |].
  split; [apply omap_dependency_log; reflexivity |].
  apply logged_Permutation.
Qed.

(** C2, amended.  For every component all of whose direct dependencies
    returned [SUCCEEDED] and none of whose members contributes source
    files, the rule returns [SUCCEEDED] with exit code 0 and a classpath
    entry whose image is the merge of the images that the dependencies'
    entries carry, and neither the compiler nor the archiver is
    invoked. *)
Theorem alias_pass_through engine scheduler bash jdk_setup zip_binary request
    entries :
  Forall2 (fun r e =>
             exists log,
               returns engine scheduler bash jdk_setup zip_binary r e log)
          (dependency_requests request) entries ->
  Forall (fun e => result e = SUCCEEDED) entries ->
  members_and_java_source_files engine request = [] ->
  exists log,
    returns engine scheduler bash jdk_setup zip_binary request
            {| description := CoarsenedTarget_str (component request);
               result := SUCCEEDED;
               output :=
                 Some {| digest :=
                           merge_digests engine
                             (map digest (omap output entries)) |};
               exit_code := 0 |}
            log
    /\ compiler_invocations log = []
    /\ archiver_invocations log = [].
Proof.
  intros Hdeps Hok Halias.
  destruct (returns_outcome engine scheduler bash jdk_setup zip_binary request)
    as (entries' & Hall & Hrun).
  assert (entries' = entries) as ->.
  { clear Hrun Hok. revert entries' Hall.
    induction Hdeps as [| r e rs es [log He] _ IH]; intros entries' Hall;
      inversion Hall as [| r' e' rs' es' [log' He'] Hall']; subst;
      [reflexivity |].
    destruct (returns_functional _ _ _ _ _ _ _ _ _ _ He He') as [<- _].
    f_equal. apply IH, Hall'. }
  assert (Forall (fun e => output e <> None) entries) as Hout.
  { clear Hrun. induction Hdeps as [| r e rs es [log He] _ IH];
      [constructor |].
    inversion Hok as [| ? ? Hres Hok']; subst.
    inversion Hall as [| ? ? ? ? _ Hall']; subst.
    constructor; [| exact (IH Hok' Hall')].
    intros Hnone. apply (returns_output _ _ _ _ _ _ _ _ He) in Hnone.
    exact (Hnone Hres). }
  rewrite (outcome_alias _ _ _ _ _ _ _ Hout Halias) in Hrun.
  cbn [fst snd] in Hrun.
  eexists. split; [exact Hrun |].
  unfold compiler_invocations, archiver_invocations.
  rewrite !omap_app, !omap_dependency_log, !omap_sources_log by reflexivity.
  split; reflexivity.
Qed.

(** C9.  Whatever path a run of the rule takes (dependency failure,
    alias pass-through, compiler failure or success), the entry it
    returns is described by the string form of the requested
    component. *)
Theorem description_is_component_str compile engine scheduler bash jdk_setup
    zip_binary request entry log :
  run compile engine scheduler
      (compile_java_source bash jdk_setup zip_binary request)
  = Some (entry, log) ->
  description entry = CoarsenedTarget_str (component request).
Proof.
  intros Hrun. apply run_outcome in Hrun as (entries & _ & Hout).
  unfold outcome in Hout. cbv zeta in Hout.
  repeat match type of Hout with
         | (if ?b then _ else _) = _ => destruct b
         end;
    injection Hout as <- _; reflexivity.
Qed.

(** Once the compiler was invoked, the run looked at its exit code: the
    shape of the outcome with the process that was run. *)
Lemma outcome_compiled engine scheduler bash jdk_setup zip_binary request
    entries entry log p :
  outcome engine scheduler bash jdk_setup zip_binary request entries
  = (entry, log) ->
  In p (compiler_invocations log) ->
  p = javac_process engine bash jdk_setup request entries
  /\ outcome engine scheduler bash jdk_setup zip_binary request entries
     = let compile_result := execute_fallible engine p in
       if negb (process_exit_code compile_result =? 0) then
         (from_fallible_process_result
            (CoarsenedTarget_str (component request)) compile_result None,
          dependency_log scheduler request ++ sources_log scheduler request
          ++ assembly_log engine scheduler bash jdk_setup request entries)
       else if seq_truthy (files (digest_snapshot engine
                                    (process_output_digest compile_result)))
       then
         (from_fallible_process_result
            (CoarsenedTarget_str (component request)) compile_result
            (Some {| digest :=
                       output_digest
                         (execute engine
                            (jar_process bash zip_binary request
                                         compile_result)) |}),
          dependency_log scheduler request ++ sources_log scheduler request
          ++ assembly_log engine scheduler bash jdk_setup request entries
          ++ [Requested (Get_Snapshot_Digest
                           (process_output_digest compile_result));
              Requested (Get_ProcessResult
                           (jar_process bash zip_binary request
                                        compile_result))])
       else
         (from_fallible_process_result
            (CoarsenedTarget_str (component request)) compile_result
            (Some {| digest := EMPTY_DIGEST |}),
          dependency_log scheduler request ++ sources_log scheduler request
          ++ assembly_log engine scheduler bash jdk_setup request entries
          ++ [Requested (Get_Snapshot_Digest
                           (process_output_digest compile_result))]).
Proof.
  intros Hout Hin.
  pose proof (compiler_invocations_outcome engine scheduler bash jdk_setup
                zip_binary request entries) as Hinv.
  rewrite Hout in Hinv. cbn [snd] in Hinv. rewrite Hinv in Hin.
  unfold outcome.
  destruct (negb (length (classfiles entries) =? length entries)%nat);
    [destruct Hin |].
  destruct (negb (seq_truthy _)); [destruct Hin |].
  destruct Hin as [<- | []]. split; reflexivity.
Qed.

(** C5, amended.  When the compiler process that a run invoked exits
    with a non-zero code, the rule returns [FAILED] with that exit code
    and no classpath entry, described by the string form of the
    component and not by the description of the process, which is
    [Compile <component> with javac]; the compiler request is the last
    one of the run, so packaging is never invoked. *)
Theorem compiler_failure_is_failed compile engine scheduler bash jdk_setup
    zip_binary request entry log p :
  run compile engine scheduler
      (compile_java_source bash jdk_setup zip_binary request)
  = Some (entry, log) ->
  In p (compiler_invocations log) ->
  process_exit_code (execute_fallible engine p) <> 0 ->
  entry = {| description := CoarsenedTarget_str (component request);
             result := FAILED;
             output := None;
             exit_code := process_exit_code (execute_fallible engine p) |}
  /\ process_description p
     = "Compile " +:+ CoarsenedTarget_str (component request)
       +:+ " with javac"
  /\ archiver_invocations log = []
  /\ exists before,
       log = before ++ [Requested (Get_FallibleProcessResult p)].
Proof.
  intros Hrun Hin Hexit.
  apply run_outcome in Hrun as (entries & _ & Hout).
  destruct (outcome_compiled _ _ _ _ _ _ _ _ _ _ Hout Hin) as [Hp Hshape].
  rewrite Hout in Hshape. cbv zeta in Hshape.
  apply Z.eqb_neq in Hexit. rewrite Hexit in Hshape. cbn [negb] in Hshape.
  apply pair_equal_spec in Hshape as [-> ->].
  unfold from_fallible_process_result. rewrite Hexit.
  split; [reflexivity |]. split; [rewrite Hp; reflexivity |]. split.
  - unfold archiver_invocations.
    rewrite !omap_app, !omap_dependency_log, !omap_sources_log
      by reflexivity.
    apply archiver_invocations_assembly_log.
  - unfold assembly_log. rewrite Hp.
    match goal with
    | |- context [[?x; ?y; Requested (Get_FallibleProcessResult ?q)]] =>
        change [x; y; Requested (Get_FallibleProcessResult q)]
          with ([x; y] ++ [Requested (Get_FallibleProcessResult q)])
    end.
    rewrite !List.app_assoc. eexists. reflexivity.
Qed.

(** C4.  When the compiler process that a run invoked exits with code 0,
    the run next asks for the snapshot of its output image.  If that
    holds no files, this is the last request: the archiver is not
    invoked, the entry carries the empty image and the result is
    [SUCCEEDED].  If it holds at least one file, exactly one more
    request follows, the archiver process: [bash -c] on the command
    [cd classfiles ; <zip> -r ../<path-safe spec>.jar .], over the
    compiler's output image and declaring the one output file
    [<path-safe spec>.jar]; the entry carries the image that process
    produces and the result is [SUCCEEDED]. *)
Theorem packaging_follows_output compile engine scheduler bash jdk_setup
    zip_binary request entry log p :
  run compile engine scheduler
      (compile_java_source bash jdk_setup zip_binary request)
  = Some (entry, log) ->
  In p (compiler_invocations log) ->
  process_exit_code (execute_fallible engine p) = 0 ->
  let compiled := process_output_digest (execute_fallible engine p) in
  let artifact :=
    representative_path_safe_spec (component request) +:+ ".jar" in
  (files (digest_snapshot engine compiled) = [] ->
   archiver_invocations log = []
   /\ (exists before,
         log = before ++ [Requested (Get_FallibleProcessResult p);
                          Requested (Get_Snapshot_Digest compiled)])
   /\ entry = {| description := CoarsenedTarget_str (component request);
                 result := SUCCEEDED;
                 output := Some {| digest := EMPTY_DIGEST |};
                 exit_code := 0 |})
  /\ (files (digest_snapshot engine compiled) <> [] ->
      exists jar,
        archiver_invocations log = [jar]
        /\ (exists before,
              log = before ++ [Requested (Get_FallibleProcessResult p);
                               Requested (Get_Snapshot_Digest compiled);
                               Requested (Get_ProcessResult jar)])
        /\ jar = {| argv :=
                      [bash_path bash;
                       "-c";
                       "cd classfiles ; " +:+ zip_path zip_binary
                       +:+ " -r ../" +:+ artifact +:+ " ."];
                    input_digest := compiled;
                    use_nailgun := None;
                    append_only_caches := None;
                    env := None;
                    output_directories := None;
                    output_files := Some [artifact];
                    process_description :=
                      "Capture outputs of "
                      +:+ CoarsenedTarget_str (component request)
                      +:+ " for javac";
                    level := TRACE |}
        /\ entry = {| description := CoarsenedTarget_str (component request);
                      result := SUCCEEDED;
                      output :=
                        Some {| digest := output_digest (execute engine jar) |};
                      exit_code := 0 |}).
Proof.
  intros Hrun Hin Hexit compiled artifact.
  apply run_outcome in Hrun as (entries & _ & Hout).
  destruct (outcome_compiled _ _ _ _ _ _ _ _ _ _ Hout Hin) as [Hp Hshape].
  rewrite Hout in Hshape. cbv zeta in Hshape.
  rewrite Hexit in Hshape. cbn [Z.eqb negb] in Hshape.
  fold compiled in Hshape.
  unfold from_fallible_process_result in Hshape. rewrite Hexit in Hshape.
  cbn [Z.eqb] in Hshape.
  assert (forall rest,
            archiver_invocations
              (dependency_log scheduler request
               ++ sources_log scheduler request
               ++ assembly_log engine scheduler bash jdk_setup request entries
               ++ rest)
            = archiver_invocations rest) as Harch.
  { intros rest. unfold archiver_invocations.
    rewrite !omap_app, !omap_dependency_log, !omap_sources_log
      by reflexivity.
    pose proof (archiver_invocations_assembly_log engine scheduler bash
                  jdk_setup request entries) as Hasm.
    unfold archiver_invocations in Hasm. rewrite Hasm. reflexivity. }
  assert (forall rest,
            exists before,
              dependency_log scheduler request
              ++ sources_log scheduler request
              ++ assembly_log engine scheduler bash jdk_setup request entries
              ++ rest
              = before ++ Requested (Get_FallibleProcessResult p) :: rest)
    as Hlast.
  { intros rest. unfold assembly_log. rewrite Hp.
    match goal with
    | |- context [[?x; ?y; Requested (Get_FallibleProcessResult ?q)]] =>
        change [x; y; Requested (Get_FallibleProcessResult q)]
          with ([x; y] ++ [Requested (Get_FallibleProcessResult q)])
    end.
    eexists (dependency_log scheduler request
             ++ sources_log scheduler request
             ++ [_; _] ++ logged scheduler [_; _; _] ++ [_; _]).
    rewrite <- !List.app_assoc. reflexivity. }
  split.
  - intros Hempty. rewrite Hempty in Hshape. cbn [seq_truthy] in Hshape.
    apply pair_equal_spec in Hshape as [-> ->].
    rewrite Harch. split; [reflexivity |]. split; [apply Hlast | reflexivity].
  - intros Hfiles.
    destruct (files (digest_snapshot engine compiled)) as [| f fs];
      [congruence |].
    cbn [seq_truthy] in Hshape. apply pair_equal_spec in Hshape as [-> ->].
    exists (jar_process bash zip_binary request (execute_fallible engine p)).
    rewrite Harch. split; [reflexivity |]. split; [apply Hlast |].
    split; reflexivity.
Qed.

(** A run with every dependency entry in hand and at least one
    contributing member goes through classpath assembly and invokes the
    compiler. *)
Lemma run_reaches_assembly compile engine scheduler bash jdk_setup zip_binary
    request entries :
  mapM compile (dependency_requests request) = Some entries ->
  Forall (fun e => output e <> None) entries ->
  members_and_java_source_files engine request <> [] ->
  exists entry rest,
    run compile engine scheduler
        (compile_java_source bash jdk_setup zip_binary request)
    = Some (entry,
            dependency_log scheduler request ++ sources_log scheduler request
            ++ assembly_log engine scheduler bash jdk_setup request entries
            ++ rest)
    /\ compiler_invocations rest = []
    /\ filter_requests rest = []
    /\ materialize_requests rest = [].
Proof.
  intros Hdeps Hall Hsrc.
  rewrite run_compile_java_source, Hdeps. cbn [fmap option_fmap option_map].
  apply classfiles_all in Hall. unfold outcome. cbv zeta.
  rewrite Hall, Nat.eqb_refl. cbn [negb].
  destruct (members_and_java_source_files engine request) as [| ts tss] eqn:E;
    [congruence |].
  cbn [seq_truthy negb].
  destruct (negb (process_exit_code _ =? 0)).
  - eexists _, []. rewrite app_nil_r. repeat split; reflexivity.
  - destruct (seq_truthy _); eexists _, _; repeat split; reflexivity.
Qed.

(** C3.  In every compilation that reaches classpath assembly, whatever
    the order in which the requests of a batch complete, the compiler is
    invoked once, and its classpath argument is the paths of the
    prefixed first-party image followed by the third-party classpath
    entries, joined with the path separator in that order. *)
Theorem classpath_is_user_then_third_party compile engine scheduler bash
    jdk_setup zip_binary request entries :
  mapM compile (dependency_requests request) = Some entries ->
  Forall (fun e => output e <> None) entries ->
  members_and_java_source_files engine request <> [] ->
  let user :=
    files (add_prefix engine
             (merge_digests engine (map digest (omap output entries)))
             "__usercp") in
  let third_party :=
    classpath_entries
      (materialize_classpath engine
         {| prefix := "__thirdpartycp";
            lockfiles :=
              [filter_dependencies engine
                 {| filter_coordinates := third_party_coordinates request;
                    filter_lockfile :=
                      coursier_resolve engine (resolve request) |}] |}) in
  exists entry log p sources,
    run compile engine scheduler
        (compile_java_source bash jdk_setup zip_binary request)
    = Some (entry, log)
    /\ compiler_invocations log = [p]
    /\ argv p
       = jdk_args jdk_setup bash [java_home jdk_setup +:+ "/lib/tools.jar"]
         ++ ["com.sun.tools.javac.Main"]
         ++ (if str_truthy (join ":" (user ++ third_party))
             then ["-cp"; join ":" (user ++ third_party)] else [])
         ++ sources
    /\ (user <> [] -> third_party <> [] ->
        join ":" (user ++ third_party)
        = join ":" user +:+ ":" +:+ join ":" third_party).
Proof.
  intros Hdeps Hall Hsrc user third_party.
  destruct (run_reaches_assembly compile engine scheduler bash jdk_setup
              zip_binary request entries Hdeps Hall Hsrc)
    as (entry & rest & Hrun & Hrest & _ & _).
  eexists entry, _, (javac_process engine bash jdk_setup request entries), _.
  split; [exact Hrun |]. split; [| split].
  - unfold compiler_invocations in *.
    rewrite !omap_app, !omap_dependency_log, !omap_sources_log, Hrest
      by reflexivity.
    pose proof (compiler_invocations_assembly_log engine scheduler bash
                  jdk_setup request entries) as Hasm.
    unfold compiler_invocations in Hasm. rewrite Hasm. reflexivity.
  - reflexivity.
  - apply join_app.
Qed.

(** Dropping the members whose sources have the empty digest drops no
    file, when the empty digest is that of an image without files. *)
Lemma contributing_files engine request :
  (forall t,
     snapshot_digest (snapshot (source_files engine (sources_request t)))
     = EMPTY_DIGEST ->
     files (snapshot (source_files engine (sources_request t))) = []) ->
  concat (map (fun ts => files (snapshot (snd ts)))
              (members_and_java_source_files engine request))
  = concat (map (fun t => files (snapshot (source_files engine
                                             (sources_request t))))
                (members_with_sources request)).
Proof.
  intros Hempty. unfold members_and_java_source_files.
  induction (members_with_sources request) as [| t ts IH]; [reflexivity |].
  cbn [map zip zip_with List.filter]. unfold contributes at 1. cbn [snd].
  destruct (bool_decide _) eqn:E; cbn [negb map concat].
  - apply bool_decide_eq_true in E. rewrite (Hempty t E). exact IH.
  - f_equal. exact IH.
Qed.

(** C7.  The argv of every compiler invocation is the launcher prefix of
    the JDK setup and the compiler entry point, then [-cp] with the
    classpath string (both left out when that string is empty), then
    [-d classfiles], then the source files of the contributing members
    in sorted order; these are the source files of all members with
    sources when the empty digest is that of an image without files. *)
Theorem compiler_argv compile engine scheduler bash jdk_setup zip_binary
    request entries entry log p :
  mapM compile (dependency_requests request) = Some entries ->
  run compile engine scheduler
      (compile_java_source bash jdk_setup zip_binary request)
  = Some (entry, log) ->
  In p (compiler_invocations log) ->
  let entry_point :=
    jdk_args jdk_setup bash [java_home jdk_setup +:+ "/lib/tools.jar"]
    ++ ["com.sun.tools.javac.Main"] in
  let classpath := classpath_string engine request entries in
  exists sources,
    (classpath = "" /\ argv p = entry_point ++ ["-d"; "classfiles"] ++ sources
     \/ classpath <> ""
        /\ argv p = entry_point ++ ["-cp"; classpath]
                    ++ ["-d"; "classfiles"] ++ sources)
    /\ Sorted str_le sources
    /\ sources ≡ₚ concat (map (fun ts => files (snapshot (snd ts)))
                              (members_and_java_source_files engine request))
    /\ ((forall t,
           snapshot_digest (snapshot (source_files engine
                                                   (sources_request t)))
           = EMPTY_DIGEST ->
           files (snapshot (source_files engine (sources_request t))) = []) ->
        sources
        ≡ₚ concat (map (fun t => files (snapshot (source_files engine
                                                    (sources_request t))))
                       (members_with_sources request))).
Proof.
  intros Hdeps Hrun Hin entry_point classpath.
  apply run_outcome in Hrun as (entries' & Hdeps' & Hout).
  rewrite Hdeps in Hdeps'. injection Hdeps' as <-.
  destruct (outcome_compiled _ _ _ _ _ _ _ _ _ _ Hout Hin) as [-> _].
  exists (sorted (chain_from_iterable
                    (map (fun ts => files (snapshot (snd ts)))
                         (members_and_java_source_files engine request)))).
  split; [| split; [| split]].
  4: { intros Hempty. rewrite <- (contributing_files _ _ Hempty).
       apply merge_sort_Permutation. }
  - cbn [argv javac_process]. fold classpath.
    destruct classpath as [| ch rest] eqn:E; cbn [str_truthy].
    + left. split; [reflexivity |]. unfold entry_point.
      rewrite <- !List.app_assoc. reflexivity.
    + right. split; [discriminate |]. unfold entry_point.
      rewrite <- !List.app_assoc. reflexivity.
  - apply Sorted_merge_sort. exact _.
  - apply merge_sort_Permutation.
Qed.

(** C8.  In every compilation that reaches classpath assembly, the
    coordinates handed to the lockfile filter are those of the members
    of the components in the closure of the direct dependencies for
    which the artifact field set applies, and of no others; the lockfile
    handed to it is the one resolved for the request's resolve key; and
    the classpath materialised, after that request, is the one of
    exactly the lockfile the filter returned. *)
Theorem third_party_is_filtered_closure compile engine scheduler bash
    jdk_setup zip_binary request entries :
  mapM compile (dependency_requests request) = Some entries ->
  Forall (fun e => output e <> None) entries ->
  members_and_java_source_files engine request <> [] ->
  exists entry before after filtering,
    run compile engine scheduler
        (compile_java_source bash jdk_setup zip_binary request)
    = Some (entry,
            before ++ Requested (Get_CoursierResolvedLockfile_Filter filtering)
            :: after)
    /\ (forall c,
          In c (filter_coordinates filtering)
          <-> exists item dep,
                In item (CoarsenedTargets_closure
                           (dependencies (component request)))
                /\ In dep (members item)
                /\ JvmArtifactFieldSet_is_applicable dep = true
                /\ c = Coordinate_from_jvm_artifact_target dep)
    /\ filter_lockfile filtering = coursier_resolve engine (resolve request)
    /\ filter_requests before = [] /\ filter_requests after = []
    /\ materialize_requests before = []
    /\ materialize_requests after
       = [{| prefix := "__thirdpartycp";
             lockfiles := [filter_dependencies engine filtering] |}].
Proof.
  intros Hdeps Hall Hsrc.
  destruct (run_reaches_assembly compile engine scheduler bash jdk_setup
              zip_binary request entries Hdeps Hall Hsrc)
    as (entry & rest & Hrun & _ & Hfilter & Hmat).
  exists entry,
    (dependency_log scheduler request ++ sources_log scheduler request
     ++ [Requested (Get_CoursierResolvedLockfile_Key (resolve request))]).
  eexists _, (lockfile_filter_request engine request).
  split.
  { rewrite Hrun. unfold assembly_log. rewrite <- !app_assoc.
    cbn [app]. reflexivity. }
  split.
  { intros c. cbn [filter_coordinates lockfile_filter_request].
    unfold third_party_coordinates. rewrite in_flat_map. split.
    - intros (item & Hitem & Hc). apply in_map_iff in Hc as (dep & <- & Hdep).
      apply filter_In in Hdep as [Hdep Happ].
      exists item, dep. repeat split; assumption.
    - intros (item & dep & Hitem & Hdep & Happ & ->).
      exists item. split; [exact Hitem |].
      apply in_map, filter_In. split; assumption. }
  split; [reflexivity |].
  unfold filter_requests, materialize_requests in *.
  rewrite !omap_app, !omap_dependency_log, !omap_sources_log by reflexivity.
  rewrite !(omap_logged_nil filter_request) by reflexivity.
  cbn [omap list_omap filter_request materialize_request app].
  rewrite Hfilter, Hmat, app_nil_r.
  repeat split; try reflexivity.
  apply Permutation_singleton_r.
  etransitivity;
    [apply omap_Permutation, logged_Permutation | reflexivity].
Qed.

(** The outcome reads the dependency entries through their [output]
    fields alone. *)
Lemma outcome_outputs engine scheduler bash jdk_setup zip_binary request
    entries entries' :
  map output entries' = map output entries ->
  outcome engine scheduler bash jdk_setup zip_binary request entries'
  = outcome engine scheduler bash jdk_setup zip_binary request entries.
Proof.
  intros Hout.
  assert (length entries' = length entries) as Hlen
    by (rewrite <- (length_map output entries'), Hout; apply length_map).
  apply classfiles_outputs in Hout.
  unfold outcome, alias_entry, assembly_log, javac_process,
    javac_input_digests, classpath_string, user_classpath,
    merged_dependencies.
  rewrite Hout, Hlen. reflexivity.
Qed.

Lemma outcome_proceeds engine scheduler bash jdk_setup zip_binary request
    entries :
  Forall (fun e => output e <> None) entries ->
  exists rest,
       rest <> []
       /\ snd (outcome engine scheduler bash jdk_setup zip_binary request
                       entries)
          = dependency_log scheduler request ++ rest.
Proof.
  intros Hall. apply classfiles_all in Hall. unfold outcome. cbv zeta.
  rewrite Hall, Nat.eqb_refl. cbn [negb].
  assert (forall (l : list Event) x, l ++ [x] <> []) as Hsnoc
    by (intros [| ? ?] ?; discriminate).
  assert (forall rest,
            sources_log scheduler request
            ++ assembly_log engine scheduler bash jdk_setup request entries
            ++ rest <> []) as Hasm.
  { intros rest Hnil. apply app_eq_nil in Hnil as [_ Hnil].
    apply app_eq_nil in Hnil as [Hnil _]. discriminate. }
  destruct (negb (seq_truthy _)).
  { cbn [snd]. eexists. split; [| reflexivity]. apply Hsnoc. }
  destruct (negb (process_exit_code _ =? 0)).
  - cbn [snd]. eexists. split; [| reflexivity].
    rewrite <- (app_nil_r (assembly_log _ _ _ _ _ _)). apply Hasm.
  - destruct (seq_truthy _); cbn [snd];
      eexists; (split; [| reflexivity]); apply Hasm.
Qed.

(** C10.  Whether a run goes past dependency resolution is decided by
    the [output] fields of the dependency entries and by nothing else:
    it short-circuits, returning the dependency-failed entry with no
    request beyond those for the dependencies, exactly when some entry
    carries no classpath entry, and it goes on to further requests
    exactly when every entry carries one.  Entries that differ only in description, result or
    exit code give the same run; in particular an entry marked
    [SUCCEEDED] that carries no output makes the run short-circuit. *)
Theorem short_circuit_reads_output_only compile engine scheduler bash
    jdk_setup zip_binary request entries :
  mapM compile (dependency_requests request) = Some entries ->
  exists entry log,
    run compile engine scheduler
        (compile_java_source bash jdk_setup zip_binary request)
    = Some (entry, log)
    /\ (entry = {| description := CoarsenedTarget_str (component request);
                   result := DEPENDENCY_FAILED;
                   output := None;
                   exit_code := 1 |}
        /\ log = dependency_log scheduler request
        <-> Exists (fun e => output e = None) entries)
    /\ ((exists rest,
           rest <> [] /\ log = dependency_log scheduler request ++ rest)
        <-> Forall (fun e => output e <> None) entries)
    /\ (forall compile' entries',
          mapM compile' (dependency_requests request) = Some entries' ->
          map output entries' = map output entries ->
          run compile' engine scheduler
              (compile_java_source bash jdk_setup zip_binary request)
          = Some (entry, log))
    /\ (forall e,
          In e entries -> result e = SUCCEEDED -> output e = None ->
          result entry = DEPENDENCY_FAILED
          /\ log = dependency_log scheduler request).
Proof.
  intros Hdeps.
  set (out := outcome engine scheduler bash jdk_setup zip_binary request
                      entries).
  assert (Exists (fun e => output e = None) entries ->
          out = (dependency_failed_entry request,
                 dependency_log scheduler request)) as Hfail
    by apply outcome_dependency_failed.
  assert (Exists (fun e => output e = None) entries
          \/ Forall (fun e => output e <> None) entries) as Hcases.
  { destruct (negb (length (classfiles entries) =? length entries)%nat)
      eqn:E.
    - left. apply classfiles_some, E.
    - right. apply classfiles_all, Nat.eqb_eq.
      apply negb_false_iff, E. }
  exists (fst out), (snd out).
  split.
  { rewrite run_compile_java_source, Hdeps. cbn.
    rewrite <- surjective_pairing. reflexivity. }
  split; [| split; [| split]].
  - split; [| intros Hex; rewrite (Hfail Hex); split; reflexivity].
    intros [_ Hlog]. destruct Hcases as [Hex | Hall]; [exact Hex |].
    destruct (outcome_proceeds engine scheduler bash jdk_setup zip_binary
                request entries Hall) as (rest & Hrest & Hmore).
    fold out in Hmore. rewrite Hlog in Hmore.
    rewrite <- (app_nil_r (dependency_log scheduler request)) in Hmore at 1.
    apply app_inv_head in Hmore. congruence.
  - split; [| apply outcome_proceeds].
    intros (rest & Hrest & Hmore).
    destruct Hcases as [Hex | Hall]; [| exact Hall].
    rewrite (Hfail Hex) in Hmore. cbn [snd] in Hmore.
    rewrite <- (app_nil_r (dependency_log scheduler request)) in Hmore at 1.
    apply app_inv_head in Hmore. congruence.
  - intros compile' entries' Hdeps' Hout.
    rewrite run_compile_java_source, Hdeps'. cbn.
    rewrite (outcome_outputs _ _ _ _ _ _ _ _ Hout).
    fold out. rewrite <- surjective_pairing. reflexivity.
  - intros e Hin _ Hnone. rewrite Hfail; [split; reflexivity |].
    apply Exists_exists. exists e. split; [| exact Hnone].
    apply list_elem_of_In, Hin.
Qed.

End Facts.


(** * The claims on the concrete world *)

#[local] Existing Instance Demo.host.
#[local] Existing Instance Demo.graph.

(** C1 at [uses_broken], whose dependency [broken] fails to compile. *)
Lemma dependency_failure_short_circuits_witness :
  exists log,
    returns Demo.engine Demo.scheduler Demo.bash tt Demo.zip_binary
            (Demo.request_for Demo.uses_broken)
            {| description := "uses.broken";
               result := DEPENDENCY_FAILED;
               output := None;
               exit_code := 1 |}
            log
    /\ compiler_invocations log = []
    /\ archiver_invocations log = []
    /\ log ≡ₚ map (fun r => Requested (Get_FallibleClasspathEntry r))
                  (dependency_requests (Demo.request_for Demo.uses_broken)).
Proof.
  assert (exists log0,
            returns Demo.engine Demo.scheduler Demo.bash tt Demo.zip_binary
                    (Demo.request_for Demo.broken)
                    {| description := "lib.broken";
                       result := FAILED;
                       output := None;
                       exit_code := 1 |}
                    log0) as [log0 Hbroken]
    by (eexists; exists 1%nat; reflexivity).
  exact (dependency_failure_short_circuits Demo.engine Demo.scheduler
           Demo.bash tt Demo.zip_binary
           (Demo.request_for Demo.uses_broken) Demo.broken _ log0
           (or_intror (or_introl eq_refl)) Hbroken (or_introl eq_refl)).
Defined.

(** C2 as stated fails at [alias_of_broken]: none of its members
    contributes source files, and the rule returns [DEPENDENCY_FAILED]. *)
Lemma alias_of_failed_dependency_counterexample :
  ~ (members_and_java_source_files Demo.engine
       (Demo.request_for Demo.alias_of_broken) = [] ->
     exists entry log,
       returns Demo.engine Demo.scheduler Demo.bash tt Demo.zip_binary
               (Demo.request_for Demo.alias_of_broken) entry log
       /\ result entry = SUCCEEDED
       /\ exit_code entry = 0).
Proof.
  intros Hclaim.
  destruct (Hclaim eq_refl) as (entry & log & Hret & Hres & _).
  assert (returns Demo.engine Demo.scheduler Demo.bash tt Demo.zip_binary
                  (Demo.request_for Demo.alias_of_broken)
                  {| description := "alias.broken";
                     result := DEPENDENCY_FAILED;
                     output := None;
                     exit_code := 1 |}
                  (dependency_log Demo.scheduler
                     (Demo.request_for Demo.alias_of_broken))) as Hfailed
    by (exists 2%nat; reflexivity).
  destruct (returns_functional _ _ _ _ _ _ _ _ _ _ Hret Hfailed) as [-> _].
  discriminate Hres.
Qed.

(** C2, amended, at [alias_of_lib], whose two dependencies succeed. *)
Lemma alias_pass_through_witness :
  exists log,
    returns Demo.engine Demo.scheduler Demo.bash tt Demo.zip_binary
            (Demo.request_for Demo.alias_of_lib)
            {| description := "alias.lib";
               result := SUCCEEDED;
               output := Some {| digest := ["lib.ok.jar"] |};
               exit_code := 0 |}
            log
    /\ compiler_invocations log = []
    /\ archiver_invocations log = [].
Proof.
  assert (Forall2
            (fun r e =>
               exists log,
                 returns Demo.engine Demo.scheduler Demo.bash tt
                         Demo.zip_binary r e log)
            (dependency_requests (Demo.request_for Demo.alias_of_lib))
            [Demo.lib_entry; Demo.guava_entry]) as Hdeps
    by (repeat constructor; eexists; exists 2%nat; reflexivity).
  assert (Forall (fun e => result e = SUCCEEDED) [Demo.lib_entry; Demo.guava_entry])
    as Hok by (repeat constructor).
  exact (alias_pass_through Demo.engine Demo.scheduler Demo.bash tt
           Demo.zip_binary (Demo.request_for Demo.alias_of_lib)
           [Demo.lib_entry; Demo.guava_entry] Hdeps Hok eq_refl).
Defined.

(** C3 at [app]: one first-party path, then one third-party path. *)
Lemma classpath_is_user_then_third_party_witness :
  exists entry log p sources,
    run Demo.demo_compile Demo.engine Demo.scheduler
        (compile_java_source Demo.bash tt Demo.zip_binary
                             (Demo.request_for Demo.app))
    = Some (entry, log)
    /\ compiler_invocations log = [p]
    /\ argv p
       = ["/bin/bash"; "jdk/bin/java"; "-cp"; "nailgun.jar:jdk/lib/tools.jar";
          "com.sun.tools.javac.Main";
          "-cp"; "__usercp/lib.ok.jar:__thirdpartycp/guava.jar"]
         ++ sources.
Proof.
  destruct (classpath_is_user_then_third_party Demo.demo_compile Demo.engine
              Demo.scheduler Demo.bash tt Demo.zip_binary
              (Demo.request_for Demo.app) [Demo.lib_entry; Demo.guava_entry])
    as (entry & log & p & sources & Hrun & Hinv & Hargv & _).
  - reflexivity.
  - repeat constructor; discriminate.
  - discriminate.
  - exists entry, log, p, sources. repeat split; assumption.
Defined.

(** C4 at [package_info], whose compile leaves no files, and at [app],
    whose compile leaves a class file. *)
Lemma packaging_follows_output_witness :
  (exists entry log p,
     run Demo.demo_compile Demo.engine Demo.scheduler
         (compile_java_source Demo.bash tt Demo.zip_binary
                              (Demo.request_for Demo.package_info))
     = Some (entry, log)
     /\ In p (compiler_invocations log)
     /\ archiver_invocations log = []
     /\ entry = {| description := "pkg";
                   result := SUCCEEDED;
                   output := Some {| digest := [] |};
                   exit_code := 0 |})
  /\ (exists entry log p jar,
        run Demo.demo_compile Demo.engine Demo.scheduler
            (compile_java_source Demo.bash tt Demo.zip_binary
                                 (Demo.request_for Demo.app))
        = Some (entry, log)
        /\ In p (compiler_invocations log)
        /\ archiver_invocations log = [jar]
        /\ argv jar
           = ["/bin/bash"; "-c";
              "cd classfiles ; /usr/bin/zip -r ../app.jar ."]
        /\ input_digest jar = ["classfiles/Main.class"]
        /\ output_files jar = Some ["app.jar"]
        /\ entry = {| description := "app";
                      result := SUCCEEDED;
                      output := Some {| digest := ["app.jar"] |};
                      exit_code := 0 |}).
Proof.
  split.
  - eexists _, _, _.
    match goal with
    | |- ?R /\ ?I /\ _ =>
        assert R as Hrun by reflexivity;
        assert I as Hin by (left; reflexivity)
    end.
    split; [exact Hrun |]. split; [exact Hin |].
    destruct (proj1 (packaging_follows_output Demo.demo_compile Demo.engine
                       Demo.scheduler Demo.bash tt Demo.zip_binary
                       (Demo.request_for Demo.package_info) _ _ _ Hrun Hin
                       eq_refl)
                    eq_refl) as (Harch & _ & Hentry).
    split; [exact Harch | exact Hentry].
  - match goal with
    | |- context [run ?c ?e ?s ?m] =>
        let r := eval vm_compute in (run c e s m) in
        match r with
        | Some (?x, ?l) => exists x, l
        end
    end.
    eexists _, _.
    match goal with
    | |- ?R /\ ?I /\ ?A /\ _ =>
        assert R as Hrun by (vm_compute; reflexivity);
        assert I as Hin by (left; reflexivity);
        assert A as Harch by reflexivity
    end.
    split; [exact Hrun |]. split; [exact Hin |]. split; [exact Harch |].
    destruct (proj2 (packaging_follows_output Demo.demo_compile Demo.engine
                       Demo.scheduler Demo.bash tt Demo.zip_binary
                       (Demo.request_for Demo.app) _ _ _ Hrun Hin eq_refl))
      as (jar & Hjar & _ & Hrecord & Hentry); [discriminate |].
    rewrite Harch in Hjar. injection Hjar as <-.
    split; [exact (f_equal argv Hrecord) |].
    split; [exact (f_equal input_digest Hrecord) |].
    split; [exact (f_equal output_files Hrecord) | exact Hentry].
Defined.

(** C5 as stated fails at [broken]: the entry is described by the
    string form of the component, the compiler process by
    [Compile lib.broken with javac]. *)
Lemma failed_entry_description_counterexample :
  ~ (forall entry log p,
       run Demo.demo_compile Demo.engine Demo.scheduler
           (compile_java_source Demo.bash tt Demo.zip_binary
                                (Demo.request_for Demo.broken))
       = Some (entry, log) ->
       In p (compiler_invocations log) ->
       process_exit_code (execute_fallible Demo.engine p) <> 0 ->
       result entry = FAILED
       /\ description entry = process_description p).
Proof.
  intros Hclaim.
  eassert (_ /\ description _ = process_description _) as [_ Hdescription].
  { eapply Hclaim; [reflexivity | left; reflexivity | discriminate]. }
  vm_compute in Hdescription. discriminate Hdescription.
Qed.

(** C5, amended, at [broken], which the compiler rejects. *)
Lemma compiler_failure_is_failed_witness :
  exists entry log p,
    run Demo.demo_compile Demo.engine Demo.scheduler
        (compile_java_source Demo.bash tt Demo.zip_binary
                             (Demo.request_for Demo.broken))
    = Some (entry, log)
    /\ In p (compiler_invocations log)
    /\ entry = {| description := "lib.broken";
                  result := FAILED;
                  output := None;
                  exit_code := 1 |}
    /\ process_description p = "Compile lib.broken with javac"
    /\ archiver_invocations log = [].
Proof.
  eexists _, _, _.
  match goal with
  | |- ?R /\ ?I /\ _ =>
      assert R as Hrun by reflexivity;
      assert I as Hin by (left; reflexivity)
  end.
  split; [exact Hrun |]. split; [exact Hin |].
  destruct (compiler_failure_is_failed Demo.demo_compile Demo.engine
              Demo.scheduler Demo.bash tt Demo.zip_binary
              (Demo.request_for Demo.broken) _ _ _ Hrun Hin)
    as (Hentry & Hdescription & Harch & _).
  - discriminate.
  - split; [exact Hentry |]. split; [exact Hdescription | exact Harch].
Defined.

(** C7 at [lib], with two source files and one third-party path. *)
Lemma compiler_argv_witness :
  exists entry log p sources,
    run Demo.demo_compile Demo.engine Demo.scheduler
        (compile_java_source Demo.bash tt Demo.zip_binary
                             (Demo.request_for Demo.lib))
    = Some (entry, log)
    /\ In p (compiler_invocations log)
    /\ argv p
       = (["/bin/bash"; "jdk/bin/java"; "-cp"; "nailgun.jar:jdk/lib/tools.jar"]
          ++ ["com.sun.tools.javac.Main"])
         ++ ["-cp"; "__thirdpartycp/guava.jar"] ++ ["-d"; "classfiles"]
         ++ sources
    /\ Sorted str_le sources
    /\ sources ≡ₚ ["Lib.java"; "Base.java"].
Proof.
  eexists _, _, _.
  match goal with
  | |- exists sources, ?R /\ ?I /\ _ =>
      assert R as Hrun by reflexivity;
      assert I as Hin by (left; reflexivity)
  end.
  destruct (compiler_argv Demo.demo_compile Demo.engine Demo.scheduler Demo.bash
              tt Demo.zip_binary (Demo.request_for Demo.lib) [Demo.guava_entry]
              _ _ _ eq_refl Hrun Hin)
    as (sources & [[Hempty _] | [_ Hargv]] & Hsorted & Hperm & _).
  - discriminate Hempty.
  - exists sources.
    split; [exact Hrun |]. split; [exact Hin |].
    split; [exact Hargv |]. split; [exact Hsorted | exact Hperm].
Defined.

(** C8 at [app]: the one coordinate in the closure of its dependencies
    is what the filter is asked to keep of the resolved lockfile. *)
Lemma third_party_is_filtered_closure_witness :
  exists entry before after filtering,
    run Demo.demo_compile Demo.engine Demo.scheduler
        (compile_java_source Demo.bash tt Demo.zip_binary
                             (Demo.request_for Demo.app))
    = Some (entry,
            before ++ Requested (Get_CoursierResolvedLockfile_Filter filtering)
            :: after)
    /\ (forall c, In c (filter_coordinates filtering) <-> c = "guava.jar")
    /\ filter_lockfile filtering = ["junit.jar"; "guava.jar"]
    /\ materialize_requests before = []
    /\ materialize_requests after
       = [{| prefix := "__thirdpartycp";
             lockfiles := [filter_dependencies Demo.engine filtering] |}].
Proof.
  destruct (third_party_is_filtered_closure Demo.demo_compile Demo.engine
              Demo.scheduler Demo.bash tt Demo.zip_binary
              (Demo.request_for Demo.app) [Demo.lib_entry; Demo.guava_entry])
    as (entry & before & after & filtering & Hrun & Hcoords & Hlock & _ & _
        & Hbefore & Hafter).
  - reflexivity.
  - repeat constructor; discriminate.
  - discriminate.
  - exists entry, before, after, filtering.
    split; [exact Hrun |].
    split; [| split; [exact Hlock | split; [exact Hbefore | exact Hafter]]].
    intros c. rewrite Hcoords. split.
    + intros (item & dep & Hitem & Hdep & Happ & ->).
      destruct Hitem as [<- | [<- | []]];
        destruct Hdep as [<- | []]; try discriminate Happ; reflexivity.
    + intros ->. exists Demo.guava. eexists.
      split; [right; left; reflexivity |].
      split; [left; reflexivity |]. split; reflexivity.
Defined.

(** C9 on each of the four return paths. *)
Lemma description_is_component_str_witness :
  (exists entry log,
     run Demo.demo_compile Demo.engine Demo.scheduler
         (compile_java_source Demo.bash tt Demo.zip_binary
                              (Demo.request_for Demo.uses_broken))
     = Some (entry, log)
     /\ result entry = DEPENDENCY_FAILED /\ description entry = "uses.broken")
  /\ (exists entry log,
        run Demo.demo_compile Demo.engine Demo.scheduler
            (compile_java_source Demo.bash tt Demo.zip_binary
                                 (Demo.request_for Demo.alias_of_lib))
        = Some (entry, log)
        /\ result entry = SUCCEEDED /\ description entry = "alias.lib")
  /\ (exists entry log,
        run Demo.demo_compile Demo.engine Demo.scheduler
            (compile_java_source Demo.bash tt Demo.zip_binary
                                 (Demo.request_for Demo.broken))
        = Some (entry, log)
        /\ result entry = FAILED /\ description entry = "lib.broken")
  /\ (exists entry log,
        run Demo.demo_compile Demo.engine Demo.scheduler
            (compile_java_source Demo.bash tt Demo.zip_binary
                                 (Demo.request_for Demo.app))
        = Some (entry, log)
        /\ result entry = SUCCEEDED /\ description entry = "app").
Proof.
  repeat split; eexists _, _;
    match goal with
    | |- ?R /\ _ => assert R as Hrun by reflexivity
    end;
    (split; [exact Hrun |]); (split; [reflexivity |]);
    exact (description_is_component_str Demo.demo_compile Demo.engine
             Demo.scheduler Demo.bash tt Demo.zip_binary _ _ _ Hrun).
Defined.

(** C10 at [app], when both dependency entries are marked [SUCCEEDED]
    and carry no output. *)
Lemma short_circuit_reads_output_only_witness :
  exists entry log,
    run Demo.mislabelled_compile Demo.engine Demo.scheduler
        (compile_java_source Demo.bash tt Demo.zip_binary
                             (Demo.request_for Demo.app))
    = Some (entry, log)
    /\ result entry = DEPENDENCY_FAILED
    /\ log = dependency_log Demo.scheduler (Demo.request_for Demo.app).
Proof.
  destruct (short_circuit_reads_output_only Demo.mislabelled_compile Demo.engine
              Demo.scheduler Demo.bash tt Demo.zip_binary
              (Demo.request_for Demo.app)
              [Demo.mislabelled_entry; Demo.mislabelled_entry] eq_refl)
    as (entry & log & Hrun & _ & _ & _ & Hmislabelled).
  exists entry, log. split; [exact Hrun |].
  apply (Hmislabelled Demo.mislabelled_entry);
    [left; reflexivity | reflexivity | reflexivity].
Defined.

(** * Further facts *)

Section MoreFacts.
Context `{Host} `{!Graph}.

(** ** The requests of a run *)

(** Whatever the path, the log starts with the requests for the
    dependencies and asks for no other component after them. *)
Lemma outcome_log engine scheduler bash jdk_setup zip_binary request entries :
  exists rest,
    snd (outcome engine scheduler bash jdk_setup zip_binary request entries)
    = dependency_log scheduler request ++ rest
    /\ compile_requests rest = [].
Proof.
  unfold outcome. cbv zeta.
  repeat match goal with
         | |- context [if ?b then _ else _] => destruct b
         end;
    cbn [snd];
    try (exists []; rewrite app_nil_r; split; reflexivity);
    eexists; (split; [reflexivity |]);
    unfold compile_requests, assembly_log;
    rewrite ?omap_app, ?omap_sources_log by reflexivity;
    rewrite ?(omap_logged_nil compile_request) by reflexivity;
    reflexivity.
Qed.

Lemma compile_requests_dependency_log scheduler request :
  compile_requests (dependency_log scheduler request)
  ≡ₚ dependency_requests request.
Proof.
  unfold compile_requests, dependency_log.
  rewrite (omap_Permutation _ _ _ (logged_Permutation _ _)).
  induction (dependency_requests request) as [| r rs IH]; [reflexivity |].
  cbn. constructor. exact IH.
Qed.

(** X1.  On every return path a run asks the engine for the classpath
    of each direct dependency of the component exactly once, under the
    resolve key of its own request, and for the classpath of no other
    component. *)
Theorem dependencies_requested_once compile engine scheduler bash jdk_setup
    zip_binary request entry log :
  run compile engine scheduler
      (compile_java_source bash jdk_setup zip_binary request)
  = Some (entry, log) ->
  compile_requests log
  ≡ₚ map (fun dep => {| component := dep; resolve := resolve request |})
         (dependencies (component request)).
Proof.
  intros Hrun. apply run_outcome in Hrun as (entries & _ & Hout).
  destruct (outcome_log engine scheduler bash jdk_setup zip_binary request
              entries) as (rest & Hlog & Hrest).
  rewrite Hout in Hlog. cbn [snd] in Hlog. subst log.
  unfold compile_requests in *. rewrite omap_app, Hrest, app_nil_r.
  apply compile_requests_dependency_log.
Qed.

(** ** The entry of a run *)

(** X2.  In the entry a run returns, the result, the exit code and the
    presence of a classpath entry agree: it is [SUCCEEDED] exactly when
    the exit code is 0 and exactly when it carries a classpath entry,
    and a [DEPENDENCY_FAILED] entry has exit code 1. *)
Theorem entry_fields_agree compile engine scheduler bash jdk_setup zip_binary
    request entry log :
  run compile engine scheduler
      (compile_java_source bash jdk_setup zip_binary request)
  = Some (entry, log) ->
  (result entry = SUCCEEDED <-> exit_code entry = 0)
  /\ (result entry = SUCCEEDED <-> output entry <> None)
  /\ (result entry = DEPENDENCY_FAILED -> exit_code entry = 1).
Proof.
  intros Hrun. apply run_outcome in Hrun as (entries & _ & Hout).
  unfold outcome in Hout. cbv zeta in Hout.
  destruct (negb (length (classfiles entries) =? length entries)%nat).
  { apply pair_equal_spec in Hout as [<- _]. cbn.
    repeat split; congruence. }
  destruct (negb (seq_truthy _)).
  { apply pair_equal_spec in Hout as [<- _]. cbn.
    repeat split; congruence. }
  destruct (process_exit_code _ =? 0) eqn:Hexit; cbn [negb] in Hout.
  - destruct (seq_truthy _); apply pair_equal_spec in Hout as [<- _];
      cbn; rewrite Hexit; apply Z.eqb_eq in Hexit;
      repeat split; congruence.
  - apply pair_equal_spec in Hout as [<- _]. cbn. rewrite Hexit.
    apply Z.eqb_neq in Hexit. repeat split; congruence.
Qed.

(** X3.  A run invokes the compiler at most once and the archiver at
    most once, and it invokes the archiver only after a compiler
    invocation that exited with code 0 and left files: then the
    archiver's input is the compiler's output image and the entry is
    [SUCCEEDED]. *)
Theorem archiver_only_after_clean_compile compile engine scheduler bash
    jdk_setup zip_binary request entry log :
  run compile engine scheduler
      (compile_java_source bash jdk_setup zip_binary request)
  = Some (entry, log) ->
  (length (compiler_invocations log) <= 1)%nat
  /\ (length (archiver_invocations log) <= 1)%nat
  /\ forall jar,
       In jar (archiver_invocations log) ->
       exists p,
         compiler_invocations log = [p]
         /\ process_exit_code (execute_fallible engine p) = 0
         /\ input_digest jar = process_output_digest (execute_fallible engine p)
         /\ files (digest_snapshot engine (input_digest jar)) <> []
         /\ result entry = SUCCEEDED.
Proof.
  intros Hrun. apply run_outcome in Hrun as (entries & _ & Hout).
  pose proof (compiler_invocations_outcome engine scheduler bash jdk_setup
                zip_binary request entries) as Hc.
  pose proof (archiver_invocations_outcome engine scheduler bash jdk_setup
                zip_binary request entries) as Ha.
  cbv zeta in Ha. rewrite Hout in Hc, Ha. cbn [snd] in Hc, Ha.
  rewrite Hc, Ha. unfold outcome in Hout. cbv zeta in Hout.
  destruct (negb (length (classfiles entries) =? length entries)%nat);
    [cbn; repeat split; try lia; intros ? [] |].
  destruct (negb (seq_truthy _));
    [cbn; repeat split; try lia; intros ? [] |].
  destruct (process_exit_code _ =? 0) eqn:Hexit; cbn [negb] in *;
    [| cbn; repeat split; try lia; intros ? []].
  destruct (seq_truthy _) eqn:Hfiles;
    [| cbn; repeat split; try lia; intros ? []].
  apply pair_equal_spec in Hout as [<- _].
  split; [cbn; lia |]. split; [cbn; lia |].
  intros jar [<- | []]. eexists. split; [reflexivity |].
  apply Z.eqb_eq in Hexit. cbn [input_digest jar_process result
                                from_fallible_process_result].
  rewrite Hexit. repeat split; try reflexivity.
  intros Hnil. rewrite Hnil in Hfiles. discriminate Hfiles.
Qed.

(** ** Edge cases *)

Lemma logged_nil scheduler : logged scheduler [] = [].
Proof.
  unfold logged. induction (scheduler []) as [| i picks IH]; [reflexivity |].
  destruct i; exact IH.
Qed.

(** X4.  A component without dependencies never short-circuits: its run
    asks for no component's classpath, so it returns even when the
    engine has no answer to such requests, and its result is not
    [DEPENDENCY_FAILED]. *)
Theorem leaf_never_dependency_failed compile engine scheduler bash jdk_setup
    zip_binary request :
  dependencies (component request) = [] ->
  exists entry log,
    run compile engine scheduler
        (compile_java_source bash jdk_setup zip_binary request)
    = Some (entry, log)
    /\ result entry <> DEPENDENCY_FAILED
    /\ compile_requests log = [].
Proof.
  intros Hleaf. rewrite run_compile_java_source.
  unfold dependency_requests. rewrite Hleaf. cbn [map mapM].
  cbn [mret option_ret fmap option_fmap option_map].
  eexists _, _. split; [apply f_equal, surjective_pairing |].
  split.
  - unfold outcome. cbv zeta. cbn [classfiles omap list_omap length Nat.eqb negb].
    unfold from_fallible_process_result.
    repeat match goal with
           | |- context [if ?b then _ else _] => destruct b
           end; cbn; discriminate.
  - destruct (outcome_log engine scheduler bash jdk_setup zip_binary request
                []) as (rest & -> & Hrest).
    unfold compile_requests in *. rewrite omap_app, Hrest.
    unfold dependency_log, dependency_requests. rewrite Hleaf.
    cbn [map]. rewrite logged_nil. reflexivity.
Qed.

(** X5.  Source files are requested only once every dependency entry
    carries a classpath entry, and then exactly once for each member
    that has a sources field, restricted to Java sources and with code
    generation enabled; a member without a sources field is never asked
    about. *)
Theorem sources_requested_per_member compile engine scheduler bash jdk_setup
    zip_binary request entries entry log :
  mapM compile (dependency_requests request) = Some entries ->
  run compile engine scheduler
      (compile_java_source bash jdk_setup zip_binary request)
  = Some (entry, log) ->
  (Exists (fun e => output e = None) entries -> source_requests log = [])
  /\ (Forall (fun e => output e <> None) entries ->
      source_requests log
      ≡ₚ map (fun t => {| sources_fields := [get t SourcesField];
                          for_sources_types := [JavaSourceField];
                          enable_codegen := true |})
             (List.filter (fun t => has_field t SourcesField)
                          (members (component request)))).
Proof.
  intros Hdeps Hrun. apply run_outcome in Hrun as (entries' & Hdeps' & Hout).
  rewrite Hdeps in Hdeps'. injection Hdeps' as <-.
  assert (source_requests (sources_log scheduler request)
          ≡ₚ map sources_request (members_with_sources request)) as Hsrc.
  { unfold source_requests, sources_log.
    rewrite (omap_Permutation _ _ _ (logged_Permutation _ _)).
    induction (members_with_sources request) as [| t ts IH]; [reflexivity |].
    cbn. constructor. exact IH. }
  split.
  - intros Hex. rewrite (outcome_dependency_failed _ _ _ _ _ _ _ Hex) in Hout.
    apply pair_equal_spec in Hout as [_ <-].
    apply omap_dependency_log. reflexivity.
  - intros Hall. apply classfiles_all in Hall.
    unfold outcome in Hout. cbv zeta in Hout.
    rewrite Hall, Nat.eqb_refl in Hout. cbn [negb] in Hout.
    assert (forall rest,
              source_requests rest = [] ->
              source_requests (dependency_log scheduler request
                               ++ sources_log scheduler request ++ rest)
              ≡ₚ map sources_request (members_with_sources request))
      as Hshape.
    { intros rest Hrest. unfold source_requests in *.
      rewrite !omap_app, omap_dependency_log, Hrest, app_nil_r by reflexivity.
      exact Hsrc. }
    assert (source_requests
              (assembly_log engine scheduler bash jdk_setup request entries)
            = []) as Hasm.
    { unfold source_requests, assembly_log. rewrite !omap_app.
      rewrite omap_logged_nil by reflexivity. reflexivity. }
    repeat match type of Hout with
           | (if ?b then _ else _) = _ => destruct b
           end;
      apply pair_equal_spec in Hout as [_ <-];
      rewrite ?(app_assoc (assembly_log _ _ _ _ _ _));
      try (rewrite <- (app_nil_r (assembly_log _ _ _ _ _ _)));
      apply Hshape;
      unfold source_requests in *;
      rewrite ?omap_app, ?Hasm; reflexivity.
Qed.

(** X6.  A component none of whose members has a sources field, and
    whose dependency entries all carry a classpath entry, is an alias
    whatever the source provider would answer: the run asks for no
    source files, merges the dependencies' images once, and returns
    that image as [SUCCEEDED] without any process. *)
Theorem no_sources_field_is_alias compile engine scheduler bash jdk_setup
    zip_binary request entries :
  mapM compile (dependency_requests request) = Some entries ->
  Forall (fun e => output e <> None) entries ->
  Forall (fun t => has_field t SourcesField = false)
         (members (component request)) ->
  run compile engine scheduler
      (compile_java_source bash jdk_setup zip_binary request)
  = Some ({| description := CoarsenedTarget_str (component request);
             result := SUCCEEDED;
             output :=
               Some {| digest :=
                         merge_digests engine
                           (map digest (omap output entries)) |};
             exit_code := 0 |},
          dependency_log scheduler request
          ++ [Requested (Get_Digest_MergeDigests
                           (map digest (omap output entries)))]).
Proof.
  intros Hdeps Hall Hnone.
  assert (members_with_sources request = []) as Hms.
  { unfold members_with_sources.
    induction Hnone as [| t ts Ht _ IH]; [reflexivity |].
    cbn. rewrite Ht. exact IH. }
  rewrite run_compile_java_source, Hdeps.
  cbn [fmap option_fmap option_map]. f_equal.
  rewrite outcome_alias; [| exact Hall |].
  - unfold sources_log. rewrite Hms. cbn [map]. rewrite logged_nil.
    reflexivity.
  - unfold members_and_java_source_files. rewrite Hms. reflexivity.
Qed.

(** ** The compiler invocation *)

Lemma join_empty (xs : list string) :
  join ":" xs = "" <-> xs = [] \/ xs = [""].
Proof.
  unfold join. destruct xs as [| x [| y l]].
  - split; [left; reflexivity | reflexivity].
  - cbn. split; [intros ->; right; reflexivity |].
    intros [Hnil | Hone]; [discriminate | congruence].
  - split.
    + change (String.concat ":" (x :: y :: l))
        with (x +:+ ":" +:+ String.concat ":" (y :: l)).
      destruct x; discriminate.
    + intros [Hnil | Hone]; discriminate.
Qed.

(** X7.  The compiler is invoked without a [-cp] argument exactly when
    the first-party and third-party paths together are no path at all or
    a single empty path; in every other case [-cp] and the joined paths
    follow the entry point. *)
Theorem classpath_flag_omitted_iff compile engine scheduler bash jdk_setup
    zip_binary request entries entry log p :
  mapM compile (dependency_requests request) = Some entries ->
  run compile engine scheduler
      (compile_java_source bash jdk_setup zip_binary request)
  = Some (entry, log) ->
  In p (compiler_invocations log) ->
  let paths :=
    files (user_classpath engine entries)
    ++ classpath_entries (third_party_classpath engine request) in
  let sources :=
    sorted (chain_from_iterable
              (map (fun ts => files (snapshot (snd ts)))
                   (members_and_java_source_files engine request))) in
  (paths = [] \/ paths = [""]
   <-> argv p
       = jdk_args jdk_setup bash [java_home jdk_setup +:+ "/lib/tools.jar"]
         ++ ["com.sun.tools.javac.Main"; "-d"; "classfiles"] ++ sources)
  /\ (paths <> [] -> paths <> [""] ->
      argv p
      = jdk_args jdk_setup bash [java_home jdk_setup +:+ "/lib/tools.jar"]
        ++ ["com.sun.tools.javac.Main"; "-cp"; join ":" paths;
            "-d"; "classfiles"] ++ sources).
Proof.
  intros Hdeps Hrun Hin paths sources.
  apply run_outcome in Hrun as (entries' & Hdeps' & Hout).
  rewrite Hdeps in Hdeps'. injection Hdeps' as <-.
  destruct (outcome_compiled _ _ _ _ _ _ _ _ _ _ Hout Hin) as [-> _].
  cbn [argv javac_process]. unfold classpath_string. fold paths sources.
  pose proof (join_empty paths) as Hempty.
  destruct (join ":" paths) as [| ch rest] eqn:E; cbn [str_truthy].
  - split.
    + split; [reflexivity | intros _; apply Hempty; reflexivity].
    + intros Hnil Hone. destruct (proj1 Hempty eq_refl); contradiction.
  - split.
    + split.
      * intros Hpaths. apply Hempty in Hpaths. discriminate Hpaths.
      * intros Hargv. apply app_inv_head in Hargv. discriminate Hargv.
    + reflexivity.
Qed.

Lemma contributing_digests engine request :
  map (fun ts => snapshot_digest (snapshot (snd ts)))
      (members_and_java_source_files engine request)
  = List.filter (fun d => negb (bool_decide (d = EMPTY_DIGEST)))
      (map (fun t => snapshot_digest
                       (snapshot (source_files engine (sources_request t))))
           (members_with_sources request)).
Proof.
  unfold members_and_java_source_files.
  induction (members_with_sources request) as [| t ts IH]; [reflexivity |].
  cbn [map zip zip_with List.filter]. unfold contributes at 1. cbn [snd].
  destruct (negb (bool_decide _)); cbn [map]; rewrite IH; reflexivity.
Qed.

(** X8.  The input image of the compiler invocation is the answer to one
    merge request over, in this order, the prefixed first-party image,
    the third-party image, the created output directory, the JDK image,
    and the source images of the members with a sources field in member
    order, leaving out the empty ones; at least one source image is
    merged, and none of them is the empty image. *)
Theorem compiler_input_is_merge compile engine scheduler bash jdk_setup
    zip_binary request entries entry log p :
  mapM compile (dependency_requests request) = Some entries ->
  run compile engine scheduler
      (compile_java_source bash jdk_setup zip_binary request)
  = Some (entry, log) ->
  In p (compiler_invocations log) ->
  let source_digests :=
    List.filter (fun d => negb (bool_decide (d = EMPTY_DIGEST)))
      (map (fun t => snapshot_digest
                       (snapshot (source_files engine (sources_request t))))
           (members_with_sources request)) in
  let merged :=
    [snapshot_digest (user_classpath engine entries);
     materialized_digest (third_party_classpath engine request);
     create_digest engine [{| directory_path := "classfiles" |}];
     jdk_digest jdk_setup]
    ++ source_digests in
  input_digest p = merge_digests engine merged
  /\ In merged (merge_requests log)
  /\ source_digests <> []
  /\ Forall (fun d => d <> EMPTY_DIGEST) source_digests.
Proof.
  intros Hdeps Hrun Hin source_digests merged.
  apply run_outcome in Hrun as (entries' & Hdeps' & Hout).
  rewrite Hdeps in Hdeps'. injection Hdeps' as <-.
  destruct (outcome_compiled _ _ _ _ _ _ _ _ _ _ Hout Hin) as [Hp Hshape].
  assert (javac_input_digests engine jdk_setup request entries = merged)
    as Hmerged.
  { unfold javac_input_digests, merged, source_digests.
    rewrite contributing_digests. reflexivity. }
  split; [rewrite Hp; cbn [input_digest javac_process];
          rewrite Hmerged; reflexivity |].
  split; [| split].
  - assert (In merged
              (merge_requests
                 (assembly_log engine scheduler bash jdk_setup request
                               entries))) as Hasm.
    { unfold merge_requests, assembly_log. rewrite !omap_app.
      apply in_or_app. right. apply in_or_app. right.
      rewrite <- Hmerged. cbn. left. reflexivity. }
    rewrite Hout in Hshape. cbv zeta in Hshape.
    repeat match type of Hshape with
           | _ = (if ?b then _ else _) => destruct b
           end;
      apply pair_equal_spec in Hshape as [_ ->];
      unfold merge_requests in *; rewrite !omap_app;
      apply in_or_app; right; apply in_or_app; right;
      try (apply in_or_app; left); exact Hasm.
  - pose proof (compiler_invocations_outcome engine scheduler bash jdk_setup
                  zip_binary request entries) as Hinv.
    rewrite Hout in Hinv. cbn [snd] in Hinv. rewrite Hinv in Hin.
    destruct (negb (length (classfiles entries) =? length entries)%nat);
      [destruct Hin |].
    intros Hnil. unfold source_digests in Hnil.
    rewrite <- contributing_digests in Hnil.
    apply map_eq_nil in Hnil. rewrite Hnil in Hin. destruct Hin.
  - unfold source_digests. apply Forall_forall. intros d Hd.
    apply list_elem_of_In, filter_In in Hd as [_ Hd].
    apply negb_true_iff, bool_decide_eq_false in Hd. exact Hd.
Qed.

(** ** Along the dependency graph *)

(** A direct dependency that did not succeed makes the dependent return
    the dependency-failed entry from the requests for its dependencies
    alone. *)
Lemma returns_short_circuit engine scheduler bash jdk_setup zip_binary
    request dep entry log0 :
  In dep (dependencies (component request)) ->
  returns engine scheduler bash jdk_setup zip_binary
          {| component := dep; resolve := resolve request |} entry log0 ->
  result entry <> SUCCEEDED ->
  returns engine scheduler bash jdk_setup zip_binary request
          (dependency_failed_entry request)
          (dependency_log scheduler request).
Proof.
  intros Hdep Hentry Hfailed.
  destruct (returns_outcome engine scheduler bash jdk_setup zip_binary request)
    as (entries & Hall & Hrun).
  assert (Exists (fun e => output e = None) entries) as Hex.
  { assert ({| component := dep; resolve := resolve request |}
            ∈ dependency_requests request) as Hin.
    { unfold dependency_requests. apply list_elem_of_fmap.
      exists dep. split; [reflexivity | apply list_elem_of_In, Hdep]. }
    apply list_elem_of_lookup in Hin as [i Hi].
    destruct (Forall2_lookup_l _ _ _ _ _ Hall Hi) as (e & He & log' & Hret).
    destruct (returns_functional _ _ _ _ _ _ _ _ _ _ Hentry Hret) as [<- _].
    apply Exists_exists. exists entry. split.
    - eapply list_elem_of_lookup_2, He.
    - eapply returns_output; [exact Hentry | exact Hfailed]. }
  rewrite (outcome_dependency_failed _ _ _ _ _ _ _ Hex) in Hrun.
  exact Hrun.
Qed.

(** X9.  Failure is passed on along every chain of dependencies: if a
    component reached through one or more dependency edges returns an
    entry that is not [SUCCEEDED], the dependent returns
    [DEPENDENCY_FAILED] with exit code 1 and no classpath entry, and
    neither the compiler nor the archiver is invoked for it. *)
Theorem failure_reaches_every_dependent engine scheduler bash jdk_setup
    zip_binary c d key entry log0 :
  depends_on c d ->
  returns engine scheduler bash jdk_setup zip_binary
          {| component := d; resolve := key |} entry log0 ->
  result entry <> SUCCEEDED ->
  exists log,
    returns engine scheduler bash jdk_setup zip_binary
            {| component := c; resolve := key |}
            {| description := CoarsenedTarget_str c;
               result := DEPENDENCY_FAILED;
               output := None;
               exit_code := 1 |}
            log
    /\ compiler_invocations log = []
    /\ archiver_invocations log = [].
Proof.
  intros Hpath. revert entry log0.
  induction Hpath as [c d Hdep | c d e Hdep _ IH]; intros entry log0 Hret Hres.
  - eexists. split; [| split].
    + exact (returns_short_circuit engine scheduler bash jdk_setup zip_binary
               {| component := c; resolve := key |} d entry log0
               Hdep Hret Hres).
    + apply omap_dependency_log. reflexivity.
    + apply omap_dependency_log. reflexivity.
  - destruct (IH entry log0 Hret Hres) as (log & Hd & _).
    eexists. split; [| split].
    + refine (returns_short_circuit engine scheduler bash jdk_setup zip_binary
                {| component := c; resolve := key |} d _ log Hdep Hd _).
      discriminate.
    + apply omap_dependency_log. reflexivity.
    + apply omap_dependency_log. reflexivity.
Qed.

(** A [FAILED] outcome comes from a compiler invocation that exited with
    a non-zero code, and a [DEPENDENCY_FAILED] one from a dependency
    entry without output. *)
Lemma outcome_failed engine scheduler bash jdk_setup zip_binary request
    entries :
  result (fst (outcome engine scheduler bash jdk_setup zip_binary request
                       entries)) = FAILED ->
  compiler_invocations
    (snd (outcome engine scheduler bash jdk_setup zip_binary request entries))
  = [javac_process engine bash jdk_setup request entries]
  /\ process_exit_code
       (execute_fallible engine
          (javac_process engine bash jdk_setup request entries)) <> 0.
Proof.
  rewrite compiler_invocations_outcome. unfold outcome. cbv zeta.
  destruct (negb (length (classfiles entries) =? length entries)%nat);
    [discriminate |].
  destruct (negb (seq_truthy _)); [discriminate |].
  destruct (process_exit_code _ =? 0) eqn:Hexit; cbn [negb].
  - destruct (seq_truthy _); cbn; rewrite Hexit; discriminate.
  - intros _. split; [reflexivity | apply Z.eqb_neq, Hexit].
Qed.

Lemma outcome_dependency_failed_inv engine scheduler bash jdk_setup zip_binary
    request entries :
  result (fst (outcome engine scheduler bash jdk_setup zip_binary request
                       entries)) = DEPENDENCY_FAILED ->
  Exists (fun e => output e = None) entries.
Proof.
  intros Hres. apply classfiles_some.
  unfold outcome in Hres. cbv zeta in Hres.
  destruct (negb (length (classfiles entries) =? length entries)%nat);
    [reflexivity |].
  destruct (negb (seq_truthy _)); [discriminate Hres |].
  unfold from_fallible_process_result in Hres.
  destruct (process_exit_code _ =? 0); cbn [negb] in Hres;
    [destruct (seq_truthy _) |]; discriminate Hres.
Qed.

Lemma execute_rule_root_cause engine scheduler bash jdk_setup zip_binary
    fuel request entry log :
  execute_rule engine scheduler bash jdk_setup zip_binary fuel request
  = Some (entry, log) ->
  result entry = DEPENDENCY_FAILED ->
  exists d entry' log' p,
    depends_on (component request) d
    /\ returns engine scheduler bash jdk_setup zip_binary
               {| component := d; resolve := resolve request |} entry' log'
    /\ result entry' = FAILED
    /\ compiler_invocations log' = [p]
    /\ process_exit_code (execute_fallible engine p) <> 0.
Proof.
  revert request entry log.
  induction fuel as [| fuel IH]; intros request entry log Hrun Hres;
    [discriminate |].
  rewrite execute_rule_S in Hrun.
  destruct (mapM _ _) as [entries |] eqn:Hdeps; [| discriminate].
  cbn in Hrun. injection Hrun as Hout.
  assert (Exists (fun e => output e = None) entries) as Hex.
  { apply (outcome_dependency_failed_inv engine scheduler bash jdk_setup
             zip_binary request). rewrite Hout. exact Hres. }
  apply Exists_exists in Hex as (e & He & Hnone).
  apply list_elem_of_lookup in He as [i Hi].
  apply mapM_Some in Hdeps.
  destruct (Forall2_lookup_r _ _ _ _ _ Hdeps Hi) as (r & Hr & Hrun').
  cbn in Hrun'.
  destruct (execute_rule _ _ _ _ _ fuel r) as [[e' log'] |] eqn:Hdep;
    [| discriminate].
  injection Hrun' as ->.
  apply list_elem_of_lookup_2 in Hr. unfold dependency_requests in Hr.
  apply list_elem_of_fmap in Hr as (dep & -> & Hin).
  apply list_elem_of_In in Hin.
  assert (result e <> SUCCEEDED) as Hnot.
  { eapply returns_output; [exists fuel; exact Hdep | exact Hnone]. }
  destruct (result e) eqn:Hresult; [congruence | |].
  - destruct fuel as [| fuel']; [discriminate Hdep |].
    rewrite execute_rule_S in Hdep.
    destruct (mapM _ _) as [es |] eqn:Hes in Hdep; [| discriminate].
    cbn in Hdep. injection Hdep as Hout'.
    destruct (outcome_failed engine scheduler bash jdk_setup zip_binary
                {| component := dep; resolve := resolve request |} es)
      as [Hinv Hexit]; [rewrite Hout'; exact Hresult |].
    rewrite Hout' in Hinv. cbn [snd] in Hinv.
    exists dep, e, log',
      (javac_process engine bash jdk_setup
         {| component := dep; resolve := resolve request |} es).
    split; [apply depends_direct, Hin |].
    split; [| split; [exact Hresult | split; [exact Hinv | exact Hexit]]].
    exists (S fuel'). rewrite execute_rule_S, Hes. cbn.
    rewrite Hout'. reflexivity.
  - destruct (IH _ _ _ Hdep Hresult)
      as (d & entry' & log'' & p & Hpath & Hret & Hfailed & Hinv & Hexit).
    exists d, entry', log'', p.
    split; [eapply depends_step; [exact Hin | exact Hpath] |].
    split; [exact Hret |].
    split; [exact Hfailed | split; [exact Hinv | exact Hexit]].
Qed.

(** X10.  A [DEPENDENCY_FAILED] entry always has a root cause: some
    component reached through the dependency edges returned [FAILED],
    from a compiler invocation that exited with a non-zero code. *)
Theorem dependency_failure_has_root_cause engine scheduler bash jdk_setup
    zip_binary request entry log :
  returns engine scheduler bash jdk_setup zip_binary request entry log ->
  result entry = DEPENDENCY_FAILED ->
  exists d entry' log' p,
    depends_on (component request) d
    /\ returns engine scheduler bash jdk_setup zip_binary
               {| component := d; resolve := resolve request |} entry' log'
    /\ result entry' = FAILED
    /\ compiler_invocations log' = [p]
    /\ process_exit_code (execute_fallible engine p) <> 0.
Proof.
  intros [fuel Hrun]. exact (execute_rule_root_cause _ _ _ _ _ _ _ _ _ Hrun).
Qed.

(** ** The first-party images *)

Lemma classfiles_images (entries : list FallibleClasspathEntry) :
  Forall (fun e => output e <> None) entries ->
  Forall2 (fun e d => output e = Some {| digest := d |})
          entries (map digest (classfiles entries)).
Proof.
  unfold classfiles. induction 1 as [| e es He _ IH]; [constructor |].
  cbn. destruct (output e) as [[d] |] eqn:E; [| congruence].
  cbn. constructor; [exact E | exact IH].
Qed.

(** X14.  A run that does not end in [DEPENDENCY_FAILED] drops no
    dependency: the images it asks the engine to merge, for the
    first-party classpath or for the alias result, are the images of
    the classpath entries of all direct dependencies, one for each and
    in the order of the dependencies. *)
Theorem every_dependency_image_is_merged compile engine scheduler bash
    jdk_setup zip_binary request entries entry log :
  mapM compile (dependency_requests request) = Some entries ->
  run compile engine scheduler
      (compile_java_source bash jdk_setup zip_binary request)
  = Some (entry, log) ->
  result entry <> DEPENDENCY_FAILED ->
  exists images,
    Forall2 (fun e d => output e = Some {| digest := d |}) entries images
    /\ length images = length (dependencies (component request))
    /\ In images (merge_requests log).
Proof.
  intros Hdeps Hrun Hres.
  apply run_outcome in Hrun as (entries' & Hdeps' & Hout).
  rewrite Hdeps in Hdeps'. injection Hdeps' as <-.
  assert (Forall (fun e => output e <> None) entries) as Hall.
  { destruct (negb (length (classfiles entries) =? length entries)%nat)
      eqn:E.
    - apply classfiles_some in E.
      rewrite (outcome_dependency_failed _ _ _ _ _ _ _ E) in Hout.
      apply pair_equal_spec in Hout as [<- _]. destruct Hres. reflexivity.
    - apply classfiles_all, Nat.eqb_eq. apply negb_false_iff, E. }
  exists (map digest (classfiles entries)).
  split; [apply classfiles_images, Hall |]. split.
  - rewrite length_map. apply classfiles_all in Hall. rewrite Hall.
    apply length_mapM in Hdeps. rewrite <- Hdeps.
    unfold dependency_requests. apply length_map.
  - assert (In (map digest (classfiles entries))
              (merge_requests
                 (assembly_log engine scheduler bash jdk_setup request
                               entries))) as Hasm.
    { unfold merge_requests, assembly_log. rewrite !omap_app.
      apply in_or_app. right. apply in_or_app. left.
      apply list_elem_of_In.
      rewrite (omap_Permutation _ _ _ (logged_Permutation _ _)).
      cbn. left. }
    apply classfiles_all in Hall.
    unfold outcome in Hout. cbv zeta in Hout.
    rewrite Hall, Nat.eqb_refl in Hout. cbn [negb] in Hout.
    repeat match type of Hout with
           | (if ?b then _ else _) = _ => destruct b
           end;
      apply pair_equal_spec in Hout as [_ <-];
      unfold merge_requests in *; rewrite !omap_app;
      apply in_or_app; right; apply in_or_app; right;
      try (apply in_or_app; left; exact Hasm);
      try exact Hasm.
    cbn. left. reflexivity.
Qed.

End MoreFacts.

(** ** The formatter *)

Section RustfmtFacts.
Context `{Host} `{!Rustfmt.Formatter}.

Lemma endswith_suffix (s suffix : string) :
  endswith s suffix = true <-> exists pre, s = pre +:+ suffix.
Proof.
  induction s as [| ch s IH]; cbn [endswith].
  - rewrite orb_false_r, String.eqb_eq. split.
    + intros <-. exists "". reflexivity.
    + intros [[| ? ?] Hpre]; [exact Hpre | discriminate Hpre].
  - rewrite orb_true_iff, String.eqb_eq, IH. split.
    + intros [<- | [pre ->]]; [exists ""; reflexivity |].
      exists (String ch pre). reflexivity.
    + intros [[| ch' pre] Hpre]; [left; exact Hpre |].
      right. exists pre.
      change (String ch s = String ch' (pre +:+ suffix)) in Hpre.
      congruence.
Qed.

(** X12.  [rustfmt_fmt] runs one toolchain process, [rustfmt], whose
    arguments are the files of the snapshot that end in [.rs], in
    snapshot order and once per occurrence, and no other file; every
    file of the snapshot, formatted or not, is declared as an output,
    and the input image is the snapshot's.  The result is what
    [FmtResult.create] makes of the request and that process's result. *)
Theorem rustfmt_formats_rs_files (engine : Rustfmt.Engine)
    (request : Rustfmt.Batch) :
  exists p,
    Rustfmt.run engine (Rustfmt.rustfmt_fmt request)
    = (Rustfmt.create engine request (Rustfmt.execute engine p),
       [Rustfmt.Executed p;
        Rustfmt.Created request (Rustfmt.execute engine p)])
    /\ Rustfmt.binary p = "rustfmt"
    /\ Rustfmt.args p
       = List.filter (fun f => endswith f ".rs")
                     (files (Rustfmt.snapshot request))
    /\ sublist (Rustfmt.args p) (files (Rustfmt.snapshot request))
    /\ (forall f,
          In f (Rustfmt.args p)
          <-> In f (files (Rustfmt.snapshot request))
              /\ exists pre, f = pre +:+ ".rs")
    /\ Rustfmt.output_files p = files (Rustfmt.snapshot request)
    /\ Rustfmt.input_digest p = snapshot_digest (Rustfmt.snapshot request)
    /\ Rustfmt.description p
       = "Run rustfmt on "
         +:+ Rustfmt.pluralize (length (Rustfmt.args p)) "file" +:+ ".".
Proof.
  eexists. split; [reflexivity |]. cbn.
  split; [reflexivity |]. split; [reflexivity |].
  split; [| split; [| repeat split]].
  - induction (files (Rustfmt.snapshot request)) as [| f fs IH];
      [constructor |].
    cbn [List.filter]. destruct (endswith f ".rs"); constructor; exact IH.
  - intros f. rewrite filter_In, endswith_suffix. reflexivity.
Qed.

(** X13.  When no file of the snapshot ends in [.rs], [rustfmt_fmt]
    still runs the process, with no file argument, a description
    counting 0 files, and every file of the snapshot declared as an
    output. *)
Theorem rustfmt_without_rs_files (engine : Rustfmt.Engine)
    (request : Rustfmt.Batch) :
  Forall (fun f => forall pre, f <> pre +:+ ".rs")
         (files (Rustfmt.snapshot request)) ->
  exists p,
    omap Rustfmt.executed
         (snd (Rustfmt.run engine (Rustfmt.rustfmt_fmt request))) = [p]
    /\ Rustfmt.args p = []
    /\ Rustfmt.output_files p = files (Rustfmt.snapshot request)
    /\ Rustfmt.description p
       = "Run rustfmt on " +:+ Rustfmt.pluralize 0 "file" +:+ ".".
Proof.
  intros Hnone.
  assert (List.filter (fun f => endswith f ".rs")
                      (files (Rustfmt.snapshot request)) = []) as Hargs.
  { induction Hnone as [| f fs Hf _ IH]; [reflexivity |].
    cbn [List.filter]. destruct (endswith f ".rs") eqn:E; [| exact IH].
    apply endswith_suffix in E as [pre Hpre]. destruct (Hf pre Hpre). }
  eexists. split; [reflexivity |]. cbn. rewrite Hargs.
  repeat split.
Qed.

End RustfmtFacts.

(** * The further facts on the concrete world *)

#[local] Existing Instance RustDemo.formatter.

(** Evaluate the run in the goal and give its entry and log. *)
Ltac exists_run :=
  match goal with
  | |- context [run ?c ?e ?s ?m] =>
      let r := eval vm_compute in (run c e s m) in
      match r with
      | Some (?x, ?l) => exists x, l
      end
  end.

Ltac keep_run H :=
  match goal with
  | |- ?R /\ _ => assert R as H by (vm_compute; reflexivity)
  end.

(** X1 at [app], which has two dependencies. *)
Lemma dependencies_requested_once_witness :
  exists entry log,
    run Demo.demo_compile Demo.engine Demo.scheduler
        (compile_java_source Demo.bash tt Demo.zip_binary
                             (Demo.request_for Demo.app))
    = Some (entry, log)
    /\ compile_requests log
       ≡ₚ [Demo.request_for Demo.lib; Demo.request_for Demo.guava].
Proof.
  exists_run. keep_run Hrun.
  split; [exact Hrun |].
  exact (dependencies_requested_once Demo.demo_compile Demo.engine
           Demo.scheduler Demo.bash tt Demo.zip_binary _ _ _ Hrun).
Defined.

(** X2 at [broken], whose compile fails. *)
Lemma entry_fields_agree_witness :
  exists entry log,
    run Demo.demo_compile Demo.engine Demo.scheduler
        (compile_java_source Demo.bash tt Demo.zip_binary
                             (Demo.request_for Demo.broken))
    = Some (entry, log)
    /\ result entry = FAILED
    /\ (result entry = SUCCEEDED <-> exit_code entry = 0)
    /\ (result entry = SUCCEEDED <-> output entry <> None)
    /\ (result entry = DEPENDENCY_FAILED -> exit_code entry = 1).
Proof.
  exists_run. keep_run Hrun.
  split; [exact Hrun |]. split; [reflexivity |].
  exact (entry_fields_agree Demo.demo_compile Demo.engine Demo.scheduler
           Demo.bash tt Demo.zip_binary _ _ _ Hrun).
Defined.

(** X3 at [app], whose compile leaves a class file. *)
Lemma archiver_only_after_clean_compile_witness :
  exists entry log jar p,
    run Demo.demo_compile Demo.engine Demo.scheduler
        (compile_java_source Demo.bash tt Demo.zip_binary
                             (Demo.request_for Demo.app))
    = Some (entry, log)
    /\ archiver_invocations log = [jar]
    /\ compiler_invocations log = [p]
    /\ process_exit_code (execute_fallible Demo.engine p) = 0
    /\ input_digest jar = ["classfiles/Main.class"].
Proof.
  exists_run. eexists _, _. keep_run Hrun.
  match goal with
  | |- _ /\ ?A /\ ?C /\ _ =>
      assert A as Harch by reflexivity; assert C as Hcomp by reflexivity
  end.
  destruct (archiver_only_after_clean_compile Demo.demo_compile Demo.engine
              Demo.scheduler Demo.bash tt Demo.zip_binary _ _ _ Hrun)
    as (_ & _ & Hjar).
  destruct (Hjar _ (or_introl eq_refl)) as (p & Hp & Hexit & _).
  rewrite Hcomp in Hp. injection Hp as <-.
  split; [exact Hrun |]. split; [exact Harch |]. split; [exact Hcomp |].
  split; [exact Hexit | reflexivity].
Defined.

(** X4 at [package_info], with an engine that answers no compile
    request. *)
Lemma leaf_never_dependency_failed_witness :
  exists entry log,
    run ChainDemo.no_answer Demo.engine Demo.scheduler
        (compile_java_source Demo.bash tt Demo.zip_binary
                             (Demo.request_for Demo.package_info))
    = Some (entry, log)
    /\ result entry <> DEPENDENCY_FAILED
    /\ compile_requests log = [].
Proof.
  exact (leaf_never_dependency_failed ChainDemo.no_answer Demo.engine
           Demo.scheduler Demo.bash tt Demo.zip_binary
           (Demo.request_for Demo.package_info) eq_refl).
Defined.

(** X5 at [app], whose one member has a sources field. *)
Lemma sources_requested_per_member_witness :
  exists entry log,
    run Demo.demo_compile Demo.engine Demo.scheduler
        (compile_java_source Demo.bash tt Demo.zip_binary
                             (Demo.request_for Demo.app))
    = Some (entry, log)
    /\ source_requests log
       ≡ₚ [{| sources_fields := [["Main.java"]];
              for_sources_types := [JavaSourceField];
              enable_codegen := true |}].
Proof.
  exists_run. keep_run Hrun.
  split; [exact Hrun |].
  refine (proj2 (sources_requested_per_member Demo.demo_compile Demo.engine
                   Demo.scheduler Demo.bash tt Demo.zip_binary
                   (Demo.request_for Demo.app)
                   [Demo.lib_entry; Demo.guava_entry] _ _ eq_refl Hrun) _).
  repeat constructor; discriminate.
Defined.

(** X6 at [guava], whose one member is an artifact without a sources
    field. *)
Lemma no_sources_field_is_alias_witness :
  run ChainDemo.no_answer Demo.engine Demo.scheduler
      (compile_java_source Demo.bash tt Demo.zip_binary
                           (Demo.request_for Demo.guava))
  = Some ({| description := "3rdparty.guava";
             result := SUCCEEDED;
             output := Some {| digest := [] |};
             exit_code := 0 |},
          [Requested (Get_Digest_MergeDigests [])]).
Proof.
  assert (Forall (fun t => has_field t SourcesField = false)
                 (members (component (Demo.request_for Demo.guava))))
    as Hnone by (repeat constructor).
  exact (no_sources_field_is_alias ChainDemo.no_answer Demo.engine
           Demo.scheduler Demo.bash tt Demo.zip_binary
           (Demo.request_for Demo.guava) [] eq_refl
           (List.Forall_nil _) Hnone).
Defined.

(** X7 at [package_info], which has neither first-party nor third-party
    paths. *)
Lemma classpath_flag_omitted_iff_witness :
  exists entry log p,
    run ChainDemo.no_answer Demo.engine Demo.scheduler
        (compile_java_source Demo.bash tt Demo.zip_binary
                             (Demo.request_for Demo.package_info))
    = Some (entry, log)
    /\ In p (compiler_invocations log)
    /\ argv p
       = ["/bin/bash"; "jdk/bin/java"; "-cp"; "nailgun.jar:jdk/lib/tools.jar"]
         ++ ["com.sun.tools.javac.Main"; "-d"; "classfiles"]
         ++ ["package-info.java"].
Proof.
  exists_run. eexists. keep_run Hrun.
  match goal with
  | |- _ /\ ?I /\ _ => assert I as Hin by (left; reflexivity)
  end.
  split; [exact Hrun |]. split; [exact Hin |].
  refine (proj1 (proj1 (classpath_flag_omitted_iff ChainDemo.no_answer
                          Demo.engine Demo.scheduler Demo.bash tt
                          Demo.zip_binary
                          (Demo.request_for Demo.package_info) [] _ _ _
                          eq_refl Hrun Hin)) _).
  left. reflexivity.
Defined.

(** X8 at [app]. *)
Lemma compiler_input_is_merge_witness :
  exists entry log p,
    run Demo.demo_compile Demo.engine Demo.scheduler
        (compile_java_source Demo.bash tt Demo.zip_binary
                             (Demo.request_for Demo.app))
    = Some (entry, log)
    /\ In p (compiler_invocations log)
    /\ input_digest p
       = merge_digests Demo.engine
           [["__usercp/lib.ok.jar"]; ["__thirdpartycp/guava.jar"];
            ["classfiles"]; ["jdk/bin/java"]; ["Main.java"]].
Proof.
  exists_run. eexists. keep_run Hrun.
  match goal with
  | |- _ /\ ?I /\ _ => assert I as Hin by (left; reflexivity)
  end.
  split; [exact Hrun |]. split; [exact Hin |].
  exact (proj1 (compiler_input_is_merge Demo.demo_compile Demo.engine
                  Demo.scheduler Demo.bash tt Demo.zip_binary
                  (Demo.request_for Demo.app)
                  [Demo.lib_entry; Demo.guava_entry] _ _ _ eq_refl Hrun
                  Hin)).
Defined.

(** X9 at [top], two dependency edges above [broken]. *)
Lemma failure_reaches_every_dependent_witness :
  exists log,
    returns Demo.engine Demo.scheduler Demo.bash tt Demo.zip_binary
            (Demo.request_for ChainDemo.top)
            {| description := "top";
               result := DEPENDENCY_FAILED;
               output := None;
               exit_code := 1 |}
            log
    /\ compiler_invocations log = []
    /\ archiver_invocations log = [].
Proof.
  assert (depends_on ChainDemo.top Demo.broken) as Hpath.
  { eapply depends_step; [left; reflexivity |].
    apply depends_direct. right. left. reflexivity. }
  assert (exists log0,
            returns Demo.engine Demo.scheduler Demo.bash tt Demo.zip_binary
                    (Demo.request_for Demo.broken)
                    {| description := "lib.broken";
                       result := FAILED;
                       output := None;
                       exit_code := 1 |}
                    log0) as [log0 Hbroken]
    by (eexists; exists 1%nat; reflexivity).
  refine (failure_reaches_every_dependent Demo.engine Demo.scheduler
            Demo.bash tt Demo.zip_binary ChainDemo.top Demo.broken "default"
            _ log0 Hpath Hbroken _).
  discriminate.
Defined.

(** X10 at [top]. *)
Lemma dependency_failure_has_root_cause_witness :
  exists d entry' log' p,
    depends_on ChainDemo.top d
    /\ returns Demo.engine Demo.scheduler Demo.bash tt Demo.zip_binary
               (Demo.request_for d) entry' log'
    /\ result entry' = FAILED
    /\ compiler_invocations log' = [p]
    /\ process_exit_code (execute_fallible Demo.engine p) <> 0.
Proof.
  assert (exists log,
            returns Demo.engine Demo.scheduler Demo.bash tt Demo.zip_binary
                    (Demo.request_for ChainDemo.top)
                    {| description := "top";
                       result := DEPENDENCY_FAILED;
                       output := None;
                       exit_code := 1 |}
                    log) as [log Htop]
    by (exists (dependency_log Demo.scheduler
                  (Demo.request_for ChainDemo.top));
        exists 4%nat; vm_compute; reflexivity).
  exact (dependency_failure_has_root_cause Demo.engine Demo.scheduler
           Demo.bash tt Demo.zip_binary (Demo.request_for ChainDemo.top)
           _ log Htop eq_refl).
Defined.

(** X13 at a snapshot that holds the manifest alone. *)
Lemma rustfmt_without_rs_files_witness :
  exists p,
    omap Rustfmt.executed
         (snd (Rustfmt.run RustDemo.engine
                           (Rustfmt.rustfmt_fmt RustDemo.manifest_only)))
    = [p]
    /\ Rustfmt.args p = []
    /\ Rustfmt.output_files p = ["Cargo.toml"]
    /\ Rustfmt.description p = "Run rustfmt on 0 files.".
Proof.
  assert (Forall (fun f => forall pre, f <> pre +:+ ".rs")
                 (files (Rustfmt.snapshot RustDemo.manifest_only))) as Hnone.
  { repeat constructor. intros pre Hpre.
    assert (endswith "Cargo.toml" ".rs" = true) as Hends
      by (apply endswith_suffix; exists pre; exact Hpre).
    discriminate Hends. }
  exact (rustfmt_without_rs_files RustDemo.engine RustDemo.manifest_only
           Hnone).
Defined.

(** X12 at a crate with a manifest, a file that only mentions [.rs] in
    the middle of its name, and two Rust files. *)
Lemma rustfmt_formats_rs_files_witness :
  exists p,
    snd (Rustfmt.run RustDemo.engine (Rustfmt.rustfmt_fmt RustDemo.crate))
    = [Rustfmt.Executed p;
       Rustfmt.Created RustDemo.crate (Rustfmt.execute RustDemo.engine p)]
    /\ Rustfmt.args p = ["src/lib.rs"; "src/main.rs"]
    /\ Rustfmt.output_files p
       = ["Cargo.toml"; "README.rs.md"; "src/lib.rs"; "src/main.rs"]
    /\ Rustfmt.description p = "Run rustfmt on 2 files.".
Proof.
  destruct (rustfmt_formats_rs_files RustDemo.engine RustDemo.crate)
    as (p & Hrun & _).
  exists p. rewrite Hrun. split; [reflexivity |].
  apply (f_equal snd) in Hrun. cbn [snd] in Hrun.
  injection Hrun as <- _. repeat split.
Defined.

(** X14 at [app]. *)
Lemma every_dependency_image_is_merged_witness :
  exists entry log,
    run Demo.demo_compile Demo.engine Demo.scheduler
        (compile_java_source Demo.bash tt Demo.zip_binary
                             (Demo.request_for Demo.app))
    = Some (entry, log)
    /\ exists images,
         Forall2 (fun e d => output e = Some {| digest := d |})
                 [Demo.lib_entry; Demo.guava_entry] images
         /\ length images = 2%nat
         /\ In images (merge_requests log).
Proof.
  exists_run. keep_run Hrun.
  split; [exact Hrun |].
  refine (every_dependency_image_is_merged Demo.demo_compile Demo.engine
            Demo.scheduler Demo.bash tt Demo.zip_binary
            (Demo.request_for Demo.app) [Demo.lib_entry; Demo.guava_entry]
            _ _ eq_refl Hrun _).
  discriminate.
Defined.
